(** * The user service of Coffeedoor-backend-express

    A shallow embedding of [UserService] (the class exported next to
    [UserModel.js]) and of the parts of its collaborators that the service
    relies on: the [User] collection with its schema, the [ApiError] class,
    [bcrypt]'s argument checks and [crypto.randomBytes] with the hexadecimal
    rendering of a buffer.

    Modelling conventions.
    - A JavaScript value that may be missing is a [field]: [undefined],
      [null] or a value.
    - A collection is the list of its documents in natural order. A
      document may hold paths that the schema does not declare (the dotted
      paths ['reset.token'], ['resetPassword.token'], ... are fields of
      their own), since the database takes writes from anywhere.
    - A query is applied as it is written and selects the first document
      that matches.
    - An update goes through the schema, which is strict: an assignment to a
      path that the schema does not declare is dropped, and so is an
      assignment of [undefined]; what is left is written.
    - The store's operations are taken to complete and [jwt.sign] to succeed
      (the signing key is set): a failure of the driver or of the signing
      is outside the model.  The [createdAt]/[updatedAt] bookkeeping of the
      [timestamps] option is kept by the store and is not part of the model.
    - Request bodies carry strings where the service expects a password or
      a reset token; what may be missing in a body is a [field].
    - An [async] method is a state-and-exception computation over the
      [World] (the two collections); what it reads from the environment
      (the clock and the random source) comes from an [Env]. *)

From Stdlib Require Import ZArith String Ascii List Lia.
From Stdlib.Strings Require Import Byte.
From stdpp Require Import base decidable option list strings numbers.

Local Open Scope string_scope.
Local Open Scope Z_scope.

(** ** JavaScript values *)

Inductive field (A : Type) : Type :=
  | undefined
  | null
  | val (a : A).
Arguments undefined {A}.
Arguments null {A}.
Arguments val {A} a.

#[global] Instance field_eq_dec {A} `{EqDecision A} : EqDecision (field A).
Proof. solve_decision. Defined.

(** [x == null]: true of both [null] and [undefined]. *)
Definition nullish {A} (v : field A) : bool :=
  match v with
  | val _ => false
  | _ => true
  end.

(** Truthiness of a string-valued field: a non-empty string. *)
Definition truthy (v : field string) : bool :=
  match v with
  | val s => negb (String.eqb s "")
  | _ => false
  end.

(** How a template literal renders the value. *)
Definition render (v : field string) : string :=
  match v with
  | undefined => "undefined"
  | null => "null"
  | val s => s
  end.

(** The equality condition [{ path: q }] of a query against the document's
    value [v] at that path: a nullish [q] selects the documents whose path
    is null or missing. *)
Definition eq_cond {A} (q v : field A) : Prop :=
  match q with
  | val a => v = val a
  | _ => nullish v = true
  end.

#[global] Instance eq_cond_dec {A} `{EqDecision A} (q v : field A) :
  Decision (eq_cond q v).
Proof. destruct q; simpl; apply _. Defined.

(** The condition [{ path: { $gt: bound } }]. *)
Definition gt_cond (bound : Z) (v : field Z) : Prop :=
  match v with
  | val e => bound < e
  | _ => False
  end.

#[global] Instance gt_cond_dec bound v : Decision (gt_cond bound v).
Proof. destruct v; simpl; apply _. Defined.

(** ** [ApiError] *)

Record ApiError := mkApiError { status : nat; message : string }.

Definition badRequest (m : string) : ApiError := mkApiError 400 m.
Definition forbidden (m : string) : ApiError := mkApiError 403 m.
Definition notFound (m : string) : ApiError := mkApiError 404 m.
Definition invalidValue (m : string) : ApiError := mkApiError 422 m.
Definition internalError (m : string) : ApiError := mkApiError 500 m.

(** What a method can throw: an [ApiError] of the service, or a plain
    [Error] raised inside a library. *)
Inductive exn :=
  | Api (e : ApiError)
  | LibError (msg : string).

(** ** Documents and collections *)

Definition ObjectId := nat.

Record User := mkUser {
  _id : ObjectId;
  userName : field string;
  phone : field string;
  address : field string;
  email : field string;
  role : string;
  passwordHash : field string;
  avatarURL : field string;
  reset_token : field string;            (* 'reset.token' *)
  reset_expire : field Z;                (* 'reset.expire' *)
  resetPassword_token : field string;    (* 'resetPassword.token' *)
  resetPassword_expire : field Z;        (* 'resetPassword.expire' *)
  resetPassword_modified : field Z;      (* 'resetPassword.modified' *)
}.

(** An order, as far as the service looks at it. *)
Record Order := mkOrder {
  order_id : ObjectId;
  userId : ObjectId;
}.

Record World := mkWorld {
  users : list User;
  orders : list Order;
  next_oid : ObjectId;
}.

Definition with_users (us : list User) (w : World) : World :=
  mkWorld us (orders w) (next_oid w).
Definition with_orders (os : list Order) (w : World) : World :=
  mkWorld (users w) os (next_oid w).

(** What a request reads from outside the store: the [k]-th reading of
    [Date.now()] during the request, in milliseconds, and the stream of
    bytes of the system's random source. *)
Record Env := mkEnv {
  Date_now : nat -> Z;
  entropy : nat -> byte;
}.

(** ** Asynchronous computations *)

Inductive outcome (A : Type) : Type :=
  | Resolve (a : A)
  | Reject (e : exn).
Arguments Resolve {A} a.
Arguments Reject {A} e.

Definition M (A : Type) : Type := World -> outcome A * World.

Definition ret {A} (a : A) : M A := fun w => (Resolve a, w).
Definition throw {A} (e : ApiError) : M A := fun w => (Reject (Api e), w).
Definition raise {A} (msg : string) : M A := fun w => (Reject (LibError msg), w).

(** [await]: a rejection ends the method; what was written before stays. *)
Definition bind {A B} (m : M A) (k : A -> M B) : M B :=
  fun w =>
    match m w with
    | (Resolve a, w') => k a w'
    | (Reject e, w') => (Reject e, w')
    end.

Notation "'let*' x ':=' m 'in' k" := (bind m (fun x => k))
  (at level 10, x name, m at level 100, k at level 200).

(** ** The [User] and [Order] models *)

Definition by_id (id : ObjectId) (u : User) : Prop := _id u = id.
Definition by_phone (q : field string) (u : User) : Prop := eq_cond q (phone u).
Definition by_email (q : field string) (u : User) : Prop := eq_cond q (email u).

(** [{ 'reset.token': token, 'reset.expire': { $gt: now } }] *)
Definition by_reset (token : string) (now : Z) (u : User) : Prop :=
  eq_cond (val token) (reset_token u) /\ gt_cond now (reset_expire u).

#[global] Instance by_id_dec id u : Decision (by_id id u).
Proof. unfold by_id; apply _. Defined.
#[global] Instance by_phone_dec q u : Decision (by_phone q u).
Proof. unfold by_phone; apply _. Defined.
#[global] Instance by_email_dec q u : Decision (by_email q u).
Proof. unfold by_email; apply _. Defined.
#[global] Instance by_reset_dec token now u : Decision (by_reset token now u).
Proof. unfold by_reset; apply _. Defined.

(** The operations of the models are taken to complete: a failure of the
    driver (a lost connection, a timeout) is outside the model, and with it
    what a method leaves behind when one of its awaits fails that way. *)
Section Model.
Variable P : User -> Prop.
Context `{forall u, Decision (P u)}.

(** [UserModel.findOne(P)] *)
Definition findOne : M (option User) :=
  fun w => (Resolve (snd <$> list_find P (users w)), w).

(** [UserModel.findOneAndUpdate(P, update, { returnDocument: 'after' })] *)
Definition findOneAndUpdate (update : User -> User) : M (option User) :=
  fun w =>
    match list_find P (users w) with
    | Some (i, u) =>
        (Resolve (Some (update u)), with_users (<[i := update u]> (users w)) w)
    | None => (Resolve None, w)
    end.

(** [UserModel.deleteOne(P)], resolving to the [deletedCount]. *)
Definition deleteOne : M nat :=
  fun w =>
    match list_find P (users w) with
    | Some (i, _) => (Resolve 1%nat, with_users (delete i (users w)) w)
    | None => (Resolve 0%nat, w)
    end.
End Model.

(** [OrderModel.deleteMany({ userId: id })], resolving to the [deletedCount]. *)
Definition deleteMany (id : ObjectId) : M nat :=
  fun w =>
    (Resolve (length (filter (fun o => userId o = id) (orders w))),
     with_orders (filter (fun o => userId o <> id) (orders w)) w).

(** [UserModel.create(doc)]: the document gets a fresh [_id] and the schema's
    default [role]; paths that [doc] leaves out are missing.  The unique index
    on [phone] (a missing phone is indexed as null) refuses a second document
    with the same key. *)
Definition create (userName phone address passwordHash : field string) : M User :=
  fun w =>
    match list_find (by_phone phone) (users w) with
    | Some _ => (Reject (LibError "E11000 duplicate key error"), w)
    | None =>
        let user :=
          mkUser (next_oid w) userName phone address undefined "customer"
                 passwordHash undefined undefined undefined undefined
                 undefined undefined in
        (Resolve user, mkWorld (users w ++ [user]) (orders w) (S (next_oid w)))
    end.

(** ** [crypto.randomBytes] and [Buffer.toString('hex')] *)

Definition randomBytes (env : Env) (n : nat) : list byte :=
  map (entropy env) (seq 0 n).

Definition hex_digit (n : N) : ascii :=
  if (n <? 10)%N then ascii_of_N (48 + n) else ascii_of_N (87 + n).

Fixpoint toString_hex (buffer : list byte) : string :=
  match buffer with
  | [] => ""
  | b :: rest =>
      String (hex_digit (Byte.to_N b / 16))
        (String (hex_digit (Byte.to_N b mod 16)) (toString_hex rest))
  end.

(** The characters [0-9a-f]. *)
Definition is_hex_digit (c : ascii) : bool :=
  let n := N_of_ascii c in
  ((48 <=? n)%N && (n <=? 57)%N) || ((97 <=? n)%N && (n <=? 102)%N).

Fixpoint all_hex (s : string) : bool :=
  match s with
  | EmptyString => true
  | String c rest => is_hex_digit c && all_hex rest
  end.

(** ** Results of the service's methods *)

Record Logged := mkLogged {
  logged_user : User;
  logged_token : option string;
  logged_message : string;
}.

Record Updated := mkUpdated {
  updated_user : User;
  updated_message : string;
}.

Record Status (A : Type) := mkStatus {
  status_value : A;
  status_message : string;
}.
Arguments mkStatus {A} _ _.
Arguments status_value {A} _.
Arguments status_message {A} _.

Record Deleted := mkDeleted {
  orderStatus : nat;  (* deletedCount of OrderModel.deleteMany *)
  userStatus : nat;   (* deletedCount of UserModel.deleteOne *)
}.

(** What the mail transport answers. *)
Record MailStatus := mkMailStatus {
  response : string;
  accepted : list string;
}.

(** ** Request bodies *)

Record RegisterData := mkRegisterData {
  reg_phone : field string;
  reg_userName : field string;
  reg_address : field string;
  reg_password : string;
}.

Record LoginData := mkLoginData {
  login_phone : field string;
  login_password : string;
}.

Record ResetBody := mkResetBody {
  token : string;
  password : string;
}.

Record ProfileBody := mkProfileBody {
  body_userName : field string;
  body_email : field string;
  body_address : field string;
}.

(** ** Updates *)

(** [{ passwordHash }] *)
Definition set_passwordHash (h : string) (u : User) : User :=
  mkUser (_id u) (userName u) (phone u) (address u) (email u) (role u)
         (val h) (avatarURL u) (reset_token u) (reset_expire u)
         (resetPassword_token u) (resetPassword_expire u)
         (resetPassword_modified u).

(** The paths that [userSchema] declares. *)
Definition schema_paths : list string :=
  ["userName"; "phone"; "address"; "email"; "role"; "passwordHash"; "avatarURL"].

Definition declared (path : string) : bool :=
  existsb (String.eqb path) schema_paths.

(** Writing a value at one path of a document. *)
Definition put_userName (v : field string) (u : User) : User :=
  mkUser (_id u) v (phone u) (address u) (email u) (role u)
         (passwordHash u) (avatarURL u) (reset_token u) (reset_expire u)
         (resetPassword_token u) (resetPassword_expire u)
         (resetPassword_modified u).

Definition put_address (v : field string) (u : User) : User :=
  mkUser (_id u) (userName u) (phone u) v (email u) (role u)
         (passwordHash u) (avatarURL u) (reset_token u) (reset_expire u)
         (resetPassword_token u) (resetPassword_expire u)
         (resetPassword_modified u).

Definition put_email (v : field string) (u : User) : User :=
  mkUser (_id u) (userName u) (phone u) (address u) v (role u)
         (passwordHash u) (avatarURL u) (reset_token u) (reset_expire u)
         (resetPassword_token u) (resetPassword_expire u)
         (resetPassword_modified u).

Definition put_passwordHash (v : field string) (u : User) : User :=
  mkUser (_id u) (userName u) (phone u) (address u) (email u) (role u)
         v (avatarURL u) (reset_token u) (reset_expire u)
         (resetPassword_token u) (resetPassword_expire u)
         (resetPassword_modified u).

Definition put_reset_token (v : field string) (u : User) : User :=
  mkUser (_id u) (userName u) (phone u) (address u) (email u) (role u)
         (passwordHash u) (avatarURL u) v (reset_expire u)
         (resetPassword_token u) (resetPassword_expire u)
         (resetPassword_modified u).

Definition put_reset_expire (v : field Z) (u : User) : User :=
  mkUser (_id u) (userName u) (phone u) (address u) (email u) (role u)
         (passwordHash u) (avatarURL u) (reset_token u) v
         (resetPassword_token u) (resetPassword_expire u)
         (resetPassword_modified u).

Definition put_resetPassword_token (v : field string) (u : User) : User :=
  mkUser (_id u) (userName u) (phone u) (address u) (email u) (role u)
         (passwordHash u) (avatarURL u) (reset_token u) (reset_expire u)
         v (resetPassword_expire u) (resetPassword_modified u).

Definition put_resetPassword_expire (v : field Z) (u : User) : User :=
  mkUser (_id u) (userName u) (phone u) (address u) (email u) (role u)
         (passwordHash u) (avatarURL u) (reset_token u) (reset_expire u)
         (resetPassword_token u) v (resetPassword_modified u).

Definition put_resetPassword_modified (v : field Z) (u : User) : User :=
  mkUser (_id u) (userName u) (phone u) (address u) (email u) (role u)
         (passwordHash u) (avatarURL u) (reset_token u) (reset_expire u)
         (resetPassword_token u) (resetPassword_expire u) v.

(** One assignment [path: v] of an update, as the strict schema lets it
    through: it is dropped when the schema does not declare the path, and
    when the value is [undefined]; otherwise the value is written. *)
Definition assign {A} (path : string) (v : field A)
    (put : field A -> User -> User) (u : User) : User :=
  if declared path then
    match v with
    | undefined => u
    | _ => put v u
    end
  else u.

(** [{ 'reset.token': token, 'reset.expire': expire }] *)
Definition set_reset (token : string) (expire : Z) (u : User) : User :=
  assign "reset.expire" (val expire) put_reset_expire
    (assign "reset.token" (val token) put_reset_token u).

(** [{ $set: { passwordHash, 'resetPassword.token': null,
               'resetPassword.expire': null, 'resetPassword.modified': now } }] *)
Definition set_newPassword (h : string) (now : Z) (u : User) : User :=
  assign "resetPassword.modified" (val now) put_resetPassword_modified
    (assign "resetPassword.expire" null put_resetPassword_expire
       (assign "resetPassword.token" null put_resetPassword_token
          (assign "passwordHash" (val h) put_passwordHash u))).

(** [{ $set: { userName, email, address } }] *)
Definition set_profile (body : ProfileBody) (u : User) : User :=
  assign "address" (body_address body) put_address
    (assign "email" (body_email body) put_email
       (assign "userName" (body_userName body) put_userName u)).

(** ** Libraries and helpers outside the file *)

Record Libs := mkLibs {
  (* bcrypt.genSalt(rounds), drawing from the random source *)
  bcrypt_genSalt : nat -> (nat -> byte) -> string;
  (* bcrypt.hash(data, salt) on two strings *)
  bcrypt_hash : string -> string -> string;
  (* the native comparison behind bcrypt.compare on two strings *)
  bcrypt_verify : string -> string -> bool;
  (* jwt.sign({ _id }, SECRET_KEY, { expiresIn: "2d" }), issued at a time *)
  jwt_sign : ObjectId -> Z -> string;
  (* mailConfig(token, email): the transport's answer, or the message of the
     error it fails with *)
  mailConfig : string -> field string -> MailStatus + field string;
  (* the text of the error findUserById throws *)
  findUserById_message : string;
}.

(** ** The service *)

Section UserService.

Variable L : Libs.

(** [bcrypt.compare(data, hash)]: the library checks its arguments first
    ([data == null || hash == null]) and rejects with a plain [Error]. *)
Definition bcrypt_compare (data : string) (hash : field string) : M bool :=
  match hash with
  | val h => ret (bcrypt_verify L data h)
  | _ => raise "data and hash arguments required"
  end.

(** [jwt.sign] is taken to succeed: it throws when the signing key is
    unset, which is outside the model. *)
Definition generateToken (env : Env) (_id : ObjectId) : string :=
  jwt_sign L _id (Date_now env 0).

Definition createPasswordHash (env : Env) (password : string) : string :=
  let salt := bcrypt_genSalt L 5 (entropy env) in
  bcrypt_hash L password salt.

(** Modelled from the spec: [findUserById] of [utils/findUserById.js], which
    is not part of the sources at hand.  A lookup by id that fails with
    [NotFound] if no record matches, so that callers never proceed with a
    null account. *)
Definition findUserById (id : ObjectId) : M User :=
  let* user := findOne (by_id id) in
  match user with
  | Some user => ret user
  | None => throw (notFound (findUserById_message L))
  end.

(** *** Methods *)

Definition loginByToken (id : ObjectId) : M User :=
  let* user := findUserById id in
  ret user.

(** [create] resolves to a document, so the [!user] test after it never
    throws. *)
Definition rawRegister (data : RegisterData) : M User :=
  let* user := findOne (by_phone (reg_phone data)) in
  match user with
  | Some user => ret user
  | None =>
      let* user :=
        create (reg_userName data) (reg_phone data) (reg_address data) undefined in
      ret user
  end.

Definition fullRegister (env : Env) (data : RegisterData) : M (User * string) :=
  let* _ :=
    if truthy (reg_phone data) then
      let* candidat := findOne (by_phone (reg_phone data)) in
      match candidat with
      | Some _ =>
          throw (badRequest ("User with " +:+ render (reg_phone data)
                             +:+ " phone already exist. Please login"))
      | None => ret tt
      end
    else ret tt in
  let passwordHash := createPasswordHash env (reg_password data) in
  let* user :=
    create (reg_userName data) (reg_phone data) undefined (val passwordHash) in
  let token := generateToken env (_id user) in
  ret (user, token).

Definition login (env : Env) (data : LoginData) : M Logged :=
  let* user := findOne (by_phone (login_phone data)) in
  match user with
  | None => throw (notFound "Can't find user")
  | Some user =>
      if truthy (passwordHash user) then
        let* isValidPass := bcrypt_compare (login_password data) (passwordHash user) in
        if negb isValidPass then
          throw (badRequest "Incorrect login or password")
        else
          let token := generateToken env (_id user) in
          ret (mkLogged user (Some token)
                 ("User " +:+ render (userName user) +:+ " successfully logged"))
      else
        ret (mkLogged user None
               "You don't have password yet. Please, set the new one")
  end.

Definition setPassword (env : Env) (userId : ObjectId) (password : string)
  : M Updated :=
  let* user := findUserById userId in
  if truthy (passwordHash user) then
    throw (forbidden "You have password yet. Please login")
  else
    let passwordHash := createPasswordHash env password in
    let* updatedUser :=
      findOneAndUpdate (by_id (_id user)) (set_passwordHash passwordHash) in
    match updatedUser with
    | None => throw (forbidden "Modified forbidden")
    | Some updatedUser => ret (mkUpdated updatedUser "Password successfully setted")
    end.

(** The buffer of [crypto.randomBytes] is an object, so the [!buffer] test
    never throws. *)
Definition resetPassword (env : Env) (email : field string)
  : M (Status string) :=
  let* user := findOne (by_email email) in
  match user with
  | None => throw (notFound "Can't find user with this email")
  | Some _ =>
      let buffer := randomBytes env 16 in
      let token := toString_hex buffer in
      let* updatedUser :=
        findOneAndUpdate (by_email email)
          (set_reset token (Date_now env 0 + 3600 * 1000)) in
      match updatedUser with
      | None => throw (forbidden "Modified forbidden")
      | Some _ =>
          match mailConfig L token email with
          | inl status =>
              ret (mkStatus (response status)
                     ("Email successfully sent to "
                      +:+ String.concat "," (accepted status)))
          | inr err_message =>
              throw (invalidValue
                       (if truthy err_message then render err_message
                        else "Can't send mail"))
          end
      end
  end.

Definition setNewPassword (env : Env) (body : ResetBody) : M (Status bool) :=
  let passwordHash := createPasswordHash env (password body) in
  let* updatedUser :=
    findOneAndUpdate (by_reset (token body) (Date_now env 0))
      (set_newPassword passwordHash (Date_now env 1)) in
  match updatedUser with
  | None => throw (forbidden "Modified forbidden")
  | Some _ => ret (mkStatus true "New password successfully setted")
  end.

Definition confirmPassword (password : string) (id : ObjectId) : M (Status bool) :=
  let* user := findUserById id in
  let* isValidPass := bcrypt_compare password (passwordHash user) in
  if negb isValidPass then throw (badRequest "Wrong password!")
  else ret (mkStatus true "Password confirmed").

Definition updatePassword (env : Env) (password : string) (id : ObjectId)
  : M (Status bool) :=
  if String.eqb password "" then throw (badRequest "No data!")
  else
    let* user := findUserById id in
    let* isValidPass := bcrypt_compare password (passwordHash user) in
    if isValidPass then throw (badRequest "The same password!")
    else
      let passwordHash := createPasswordHash env password in
      let* updatedUser :=
        findOneAndUpdate (by_id id) (set_passwordHash passwordHash) in
      match updatedUser with
      | None => throw (forbidden "Modified forbidden")
      | Some updatedUser =>
          ret (mkStatus true
                 ("User " +:+ render (userName updatedUser)
                  +:+ " successfully updated"))
      end.

Definition updateProfile (body : option ProfileBody) (id : ObjectId) : M Updated :=
  match body with
  | None => throw (badRequest "No data!")
  | Some body =>
      let* updatedUser := findOneAndUpdate (by_id id) (set_profile body) in
      match updatedUser with
      | None => throw (forbidden "Modified forbidden")
      | Some updatedUser =>
          ret (mkUpdated updatedUser
                 ("User " +:+ render (userName updatedUser)
                  +:+ " successfully updated"))
      end
  end.

Definition deleteUser (_id : ObjectId) : M Deleted :=
  let* _ := findUserById _id in
  let* orderStatus := deleteMany _id in
  let* userStatus := deleteOne (by_id _id) in
  ret (mkDeleted orderStatus userStatus).

End UserService.

(** ** A store invariant *)

(** What the database guarantees of the [User] collection: [_id] is unique,
    and every [_id] in use was handed out before. *)
Definition ids_unique (w : World) : Prop :=
  NoDup (map _id (users w)) /\
  Forall (fun u => (_id u < next_oid w)%nat) (users w).

(** A computation keeps the invariant when it holds of the store it leaves
    whenever it held of the store it started from, whether the computation
    resolves or rejects. *)
Definition keeps_ids_unique {A} (m : M A) : Prop :=
  forall w, ids_unique w -> ids_unique (snd (m w)).

(** A computation keeps a property of the store when the property holds of
    the store it leaves whenever it held of the store it started from,
    whether the computation resolves or rejects. *)
Definition keeps_inv {A} (I : World -> Prop) (m : M A) : Prop :=
  forall w, I w -> I (snd (m w)).

(** What the unique index on [phone] stands for: no two documents have
    phones that one query value selects together. *)
Definition phones_unique (w : World) : Prop :=
  forall i j u v,
    users w !! i = Some u -> users w !! j = Some v ->
    eq_cond (phone u) (phone v) -> i = j.

(** Every account has the schema's default role. *)
Definition all_customers (w : World) : Prop :=
  Forall (fun u => role u = "customer") (users w).

(** An update that leaves the identity of a document alone. *)
Definition same_identity (u u' : User) : Prop :=
  _id u' = _id u /\ phone u' = phone u /\ role u' = role u /\
  reset_token u' = reset_token u /\ reset_expire u' = reset_expire u.

(** What a path holds once an update assigned [v] to it: the value, or what
    the path held before when the value is [undefined]. *)
Definition patched {A} (v old : field A) : field A :=
  match v with
  | undefined => old
  | _ => v
  end.

(** No document holds a reset token. *)
Definition no_reset_token (w : World) : Prop :=
  Forall (fun u => nullish (reset_token u) = true) (users w).

(** Reading a buffer back from its hexadecimal rendering
    ([Buffer.from(text, 'hex')]): pairs of digits [0-9a-fA-F] are read until
    the first pair that is not one; a trailing single character is left. *)
Definition hex_value (c : ascii) : option N :=
  let n := N_of_ascii c in
  if ((48 <=? n) && (n <=? 57))%N then Some (n - 48)%N
  else if ((97 <=? n) && (n <=? 102))%N then Some (n - 87)%N
  else if ((65 <=? n) && (n <=? 70))%N then Some (n - 55)%N
  else None.

Fixpoint fromString_hex (text : string) : list byte :=
  match text with
  | String hi (String lo rest) =>
      match hex_value hi, hex_value lo with
      | Some h, Some l =>
          match Byte.of_N (16 * h + l) with
          | Some b => b :: fromString_hex rest
          | None => []
          end
      | _, _ => []
      end
  | _ => []
  end.

(** ** A concrete instance, for running the methods *)

(** Stand-ins for the libraries: a hash that keeps the salt in front of the
    data, and a transport that accepts every mail. *)
Definition toy_libs : Libs :=
  mkLibs
    (fun rounds rng => toString_hex (map rng (seq 0 2%nat)))
    (fun data salt => salt +:+ "$" +:+ data)
    (fun data hash => String.eqb (substring 5 (String.length hash - 5)%nat hash) data)
    (fun _id now => "session")
    (fun token email => inl (mkMailStatus "250 OK" [render email]))
    "User not found".

Definition env_at (now : Z) : Env := mkEnv (fun _ => now) (fun _ => x2a).

(** The same libraries behind a mail transport that is down. *)
Definition offline_libs : Libs :=
  mkLibs (bcrypt_genSalt toy_libs) (bcrypt_hash toy_libs)
         (bcrypt_verify toy_libs) (jwt_sign toy_libs)
         (fun token email => inr undefined)
         (findUserById_message toy_libs).

Definition empty_world : World := mkWorld [] [] 0%nat.

(** A guest account, as [rawRegister] creates it. *)
Definition guest_world : World :=
  snd (rawRegister (mkRegisterData (val "+2000") (val "Bob") undefined "") empty_world).

(** A full account with an e-mail address and three orders of its own,
    next to an order of somebody else. *)
Definition member_world : World :=
  let w1 :=
    snd (fullRegister toy_libs (env_at 1000)
           (mkRegisterData (val "+1000") (val "Ann") undefined "abc123")
           empty_world) in
  let w2 :=
    snd (updateProfile
           (Some (mkProfileBody (val "Ann") (val "a@b.com") undefined)) 0%nat w1) in
  with_orders [mkOrder 10 0; mkOrder 11 7; mkOrder 12 0; mkOrder 13 0]%nat w2.


Definition issued_token : string := "2a2a2a2a2a2a2a2a2a2a2a2a2a2a2a2a".

(** The documents of the worlds. *)
Definition guest_user : User :=
  mkUser 0%nat (val "Bob") (val "+2000") undefined undefined "customer"
         undefined undefined undefined undefined undefined undefined undefined.

Definition member_user : User :=
  mkUser 0%nat (val "Ann") (val "+1000") undefined (val "a@b.com") "customer"
         (val "2a2a$abc123") undefined undefined undefined
         undefined undefined undefined.

(** The document of the full account with a reset token and an expiry in
    it. The service does not get a document into this state (the update of
    [resetPassword] is dropped by the schema): it stands for a document
    written to the collection from outside the service. *)
Definition pending_user : User :=
  mkUser 0%nat (val "Ann") (val "+1000") undefined (val "a@b.com") "customer"
         (val "2a2a$abc123") undefined (val issued_token) (val 3601000)
         undefined undefined undefined.

Definition pending_world : World := with_users [pending_user] member_world.

(** * Properties *)

(** ** The model's primitives *)

Section Primitives.
Variable P : User -> Prop.
Context `{forall u, Decision (P u)}.

Lemma findOne_found w i u :
  list_find P (users w) = Some (i, u) -> findOne P w = (Resolve (Some u), w).
Proof. intros Hf. unfold findOne. now rewrite Hf. Qed.

Lemma findOne_missing w :
  list_find P (users w) = None -> findOne P w = (Resolve None, w).
Proof. intros Hf. unfold findOne. now rewrite Hf. Qed.

Lemma findOne_world w : snd (findOne P w) = w.
Proof. reflexivity. Qed.

Lemma findOneAndUpdate_found update w i u :
  list_find P (users w) = Some (i, u) ->
  findOneAndUpdate P update w =
    (Resolve (Some (update u)), with_users (<[i := update u]> (users w)) w).
Proof. intros Hf. unfold findOneAndUpdate. now rewrite Hf. Qed.

Lemma findOneAndUpdate_missing update w :
  list_find P (users w) = None ->
  findOneAndUpdate P update w = (Resolve None, w).
Proof. intros Hf. unfold findOneAndUpdate. now rewrite Hf. Qed.

Lemma deleteOne_found w i u :
  list_find P (users w) = Some (i, u) ->
  deleteOne P w = (Resolve 1%nat, with_users (delete i (users w)) w).
Proof. intros Hf. unfold deleteOne. now rewrite Hf. Qed.

End Primitives.

Lemma bind_resolve {A B} (m : M A) (k : A -> M B) w a w' :
  m w = (Resolve a, w') -> bind m k w = k a w'.
Proof. intros Hm. unfold bind. now rewrite Hm. Qed.

Lemma bind_reject {A B} (m : M A) (k : A -> M B) w e w' :
  m w = (Reject e, w') -> bind m k w = (Reject e, w').
Proof. intros Hm. unfold bind. now rewrite Hm. Qed.

Lemma with_users_same w : with_users (users w) w = w.
Proof. now destruct w. Qed.

(** ** Consuming a reset token *)

Lemma setNewPassword_found L env body w i u :
  list_find (by_reset (token body) (Date_now env 0)) (users w) = Some (i, u) ->
  setNewPassword L env body w =
    (Resolve (mkStatus true "New password successfully setted"),
     with_users
       (<[i := set_newPassword (createPasswordHash L env (password body))
                 (Date_now env 1) u]> (users w)) w).
Proof.
  intros Hf. unfold setNewPassword.
  erewrite bind_resolve by (apply findOneAndUpdate_found, Hf).
  reflexivity.
Qed.

Lemma setNewPassword_missing L env body w :
  list_find (by_reset (token body) (Date_now env 0)) (users w) = None ->
  setNewPassword L env body w =
    (Reject (Api (forbidden "Modified forbidden")), w).
Proof.
  intros Hf. unfold setNewPassword.
  erewrite bind_resolve by (apply findOneAndUpdate_missing, Hf).
  reflexivity.
Qed.


Lemma set_newPassword_written h now u :
  set_newPassword h now u = set_passwordHash h u.
Proof. reflexivity. Qed.

(** C2: when every account either stores another reset token (or none) or
    has an expiry that is not strictly in the future, [setNewPassword] fails
    with the 403 error "Modified forbidden" and leaves the store alone; the
    error is the same whichever of the two reasons applies. *)
Theorem setNewPassword_no_match_forbidden L env body w :
  Forall (fun u => reset_token u <> val (token body) \/
                   ~ gt_cond (Date_now env 0) (reset_expire u)) (users w) ->
  setNewPassword L env body w =
    (Reject (Api (forbidden "Modified forbidden")), w).
Proof.
  intros Hall. apply setNewPassword_missing.
  apply list_find_None. eapply Forall_impl; [|exact Hall].
  intros u [Hwrong | Hexpired] [Htok Hexp]; [now apply Hwrong | now apply Hexpired].
Qed.

(** C10: a [setNewPassword] that fails with Forbidden leaves the whole store
    as it was: no password hash and no reset field of any account changes. *)
Theorem setNewPassword_forbidden_atomic L env body w m :
  fst (setNewPassword L env body w) = Reject (Api (forbidden m)) ->
  snd (setNewPassword L env body w) = w.
Proof.
  destruct (list_find (by_reset (token body) (Date_now env 0)) (users w))
    as [[i u]|] eqn:Hf.
  - rewrite (setNewPassword_found L env body w i u Hf). discriminate.
  - now rewrite (setNewPassword_missing L env body w Hf).
Qed.


(** ** Lookups by id *)

Lemma findUserById_found L id w i u :
  list_find (by_id id) (users w) = Some (i, u) ->
  findUserById L id w = (Resolve u, w).
Proof.
  intros Hf. unfold findUserById.
  now erewrite bind_resolve by (eapply findOne_found, Hf).
Qed.

Lemma findUserById_missing L id w :
  list_find (by_id id) (users w) = None ->
  findUserById L id w = (Reject (Api (notFound (findUserById_message L))), w).
Proof.
  intros Hf. unfold findUserById.
  now erewrite bind_resolve by (apply findOne_missing, Hf).
Qed.

Lemma bcrypt_compare_nullish L data hash w :
  nullish hash = true ->
  bcrypt_compare L data hash w =
    (Reject (LibError "data and hash arguments required"), w).
Proof. destruct hash; [reflexivity | reflexivity | discriminate]. Qed.

Lemma nonempty_eqb password : password <> "" -> String.eqb password "" = false.
Proof. intros Hne. now apply String.eqb_neq. Qed.

(** ** Verifying against a missing hash *)

(** C3 (what the code does instead): for an account without a stored
    [passwordHash], [confirmPassword] does not fail with BadRequest: the
    comparison is called on the missing hash and rejects with the library's
    own error, and so does [updatePassword] for a non-empty password. *)
Theorem confirmPassword_missing_hash_throws L env password id w i user :
  list_find (by_id id) (users w) = Some (i, user) ->
  nullish (passwordHash user) = true ->
  confirmPassword L password id w =
    (Reject (LibError "data and hash arguments required"), w) /\
  (password <> "" ->
   updatePassword L env password id w =
     (Reject (LibError "data and hash arguments required"), w)).
Proof.
  intros Hf Hnull. split.
  - unfold confirmPassword.
    erewrite bind_resolve by (eapply findUserById_found, Hf).
    now erewrite bind_reject by (apply bcrypt_compare_nullish, Hnull).
  - intros Hne. unfold updatePassword. rewrite (nonempty_eqb _ Hne).
    erewrite bind_resolve by (eapply findUserById_found, Hf).
    now erewrite bind_reject by (apply bcrypt_compare_nullish, Hnull).
Qed.

(** ** Guest registration *)

Lemma eq_cond_refl {A} (q : field A) : eq_cond q q.
Proof. now destruct q. Qed.

Lemma rawRegister_found data w i u :
  list_find (by_phone (reg_phone data)) (users w) = Some (i, u) ->
  rawRegister data w = (Resolve u, w).
Proof.
  intros Hf. unfold rawRegister.
  now erewrite bind_resolve by (eapply findOne_found, Hf).
Qed.

Lemma rawRegister_fresh data w :
  list_find (by_phone (reg_phone data)) (users w) = None ->
  rawRegister data w =
    (let user :=
       mkUser (next_oid w) (reg_userName data) (reg_phone data)
              (reg_address data) undefined "customer" undefined undefined
              undefined undefined undefined undefined undefined in
     (Resolve user, mkWorld (users w ++ [user]) (orders w) (S (next_oid w)))).
Proof.
  intros Hf. unfold rawRegister.
  erewrite bind_resolve by (apply findOne_missing, Hf).
  unfold bind, create. now rewrite Hf.
Qed.

(** C4: [rawRegister] resolves to an account, and a second call with the
    same data resolves to that same account (so to the same [_id]) without
    touching the store again; when some account already has the phone, the
    first call does not change the store either and the account it returns
    is one of the stored accounts with that phone. *)
Theorem rawRegister_idempotent data w :
  exists user,
    fst (rawRegister data w) = Resolve user /\
    rawRegister data (snd (rawRegister data w)) =
      (Resolve user, snd (rawRegister data w)) /\
    (forall existing,
        In existing (users w) -> by_phone (reg_phone data) existing ->
        snd (rawRegister data w) = w /\
        In user (users w) /\ by_phone (reg_phone data) user).
Proof.
  destruct (list_find (by_phone (reg_phone data)) (users w)) as [[i u]|] eqn:Hf.
  - exists u. rewrite (rawRegister_found data w i u Hf). simpl.
    split; [reflexivity|]. split; [exact (rawRegister_found data w i u Hf)|].
    intros _ _ _. split; [reflexivity|].
    apply list_find_Some in Hf as (Hi & Hp & _). split; [|exact Hp].
    apply list_elem_of_In, list_elem_of_lookup. now exists i.
  - rewrite (rawRegister_fresh data w Hf). cbv zeta. eexists.
    split; [reflexivity|]. simpl snd. split.
    + eapply rawRegister_found. simpl users.
      rewrite (list_find_app_r _ _ _ Hf). simpl.
      rewrite decide_True by exact (eq_cond_refl (reg_phone data)).
      reflexivity.
    + intros existing Hin Hp. exfalso.
      apply list_find_None in Hf. rewrite Forall_forall in Hf.
      apply (Hf existing); [exact Hin | exact Hp].
Qed.

(** ** Login *)

(** C5: when the account that the lookup by phone finds has no usable
    [passwordHash] (missing, null or empty), [login] resolves to that account
    with the message that no password is set, and writes nothing; a NotFound
    failure of [login] means that no account has the phone, and a BadRequest
    failure means that the account found has a hash against which the
    password does not verify. *)
Theorem login_cases L env data w :
  (forall i user,
      list_find (by_phone (login_phone data)) (users w) = Some (i, user) ->
      truthy (passwordHash user) = false ->
      login L env data w =
        (Resolve (mkLogged user None
                    "You don't have password yet. Please, set the new one"), w)) /\
  (forall m,
      fst (login L env data w) = Reject (Api (notFound m)) ->
      Forall (fun u => ~ by_phone (login_phone data) u) (users w)) /\
  (forall m,
      fst (login L env data w) = Reject (Api (badRequest m)) ->
      exists i user h,
        list_find (by_phone (login_phone data)) (users w) = Some (i, user) /\
        passwordHash user = val h /\ h <> "" /\
        bcrypt_verify L (login_password data) h = false).
Proof.
  split; [|split].
  - intros i user Hf Hno. unfold login.
    erewrite bind_resolve by (eapply findOne_found, Hf).
    cbv beta iota. now rewrite Hno.
  - intros m. unfold login.
    destruct (list_find (by_phone (login_phone data)) (users w))
      as [[i u]|] eqn:Hf.
    + erewrite bind_resolve by (eapply findOne_found, Hf).
      cbv beta iota.
      destruct (truthy (passwordHash u)) eqn:Ht; [|discriminate].
      destruct (passwordHash u) as [| |h]; try discriminate.
      unfold bind, bcrypt_compare, ret.
      destruct (bcrypt_verify L (login_password data) h); discriminate.
    + intros _. apply list_find_None in Hf. exact Hf.
  - intros m. unfold login.
    destruct (list_find (by_phone (login_phone data)) (users w))
      as [[i u]|] eqn:Hf.
    + erewrite bind_resolve by (eapply findOne_found, Hf).
      cbv beta iota.
      destruct (truthy (passwordHash u)) eqn:Ht; [|discriminate].
      destruct (passwordHash u) as [| |h] eqn:Hh; try discriminate.
      unfold bind, bcrypt_compare, ret.
      destruct (bcrypt_verify L (login_password data) h) eqn:Hv; [discriminate|].
      intros _. exists i, u, h. repeat split; try assumption.
      intros ->. discriminate.
    + erewrite bind_resolve by (apply findOne_missing, Hf). discriminate.
Qed.

(** ** Profile update *)

Lemma set_profile_patched body u :
  set_profile body u =
    mkUser (_id u) (patched (body_userName body) (userName u)) (phone u)
           (patched (body_address body) (address u))
           (patched (body_email body) (email u)) (role u) (passwordHash u)
           (avatarURL u) (reset_token u) (reset_expire u)
           (resetPassword_token u) (resetPassword_expire u)
           (resetPassword_modified u).
Proof.
  destruct u, body as [[| |n] [| |e] [| |a]]; reflexivity.
Qed.

(** C6 (as amended): when an account has the id, [updateProfile] replaces
    the first such account by one in which each of [userName], [email] and
    [address] holds the value of the body where the body gives one ([null]
    included) and what it held before where the body leaves it out, and
    whose other fields are those it had; every other document stays. When no
    account has the id it fails with the 403 error "Modified forbidden" and
    changes nothing. *)
Theorem updateProfile_overwrites body id w :
  (forall i user,
      list_find (by_id id) (users w) = Some (i, user) ->
      exists updated,
        updated =
          mkUser (_id user) (patched (body_userName body) (userName user))
                 (phone user) (patched (body_address body) (address user))
                 (patched (body_email body) (email user))
                 (role user) (passwordHash user) (avatarURL user)
                 (reset_token user) (reset_expire user)
                 (resetPassword_token user) (resetPassword_expire user)
                 (resetPassword_modified user) /\
        updateProfile (Some body) id w =
          (Resolve (mkUpdated updated
                      ("User " +:+ render (userName updated)
                       +:+ " successfully updated")),
           with_users (<[i := updated]> (users w)) w) /\
        (body_userName body <> undefined ->
         userName updated = body_userName body) /\
        (body_email body <> undefined -> email updated = body_email body) /\
        (body_address body <> undefined ->
         address updated = body_address body) /\
        (body_userName body = undefined -> userName updated = userName user) /\
        (body_email body = undefined -> email updated = email user) /\
        (body_address body = undefined -> address updated = address user)) /\
  (Forall (fun u => ~ by_id id u) (users w) ->
   updateProfile (Some body) id w =
     (Reject (Api (forbidden "Modified forbidden")), w)).
Proof.
  split.
  - intros i user Hf. eexists. split; [reflexivity|]. split.
    + unfold updateProfile.
      erewrite bind_resolve by (apply findOneAndUpdate_found, Hf).
      now rewrite set_profile_patched.
    + simpl. repeat split; try (intros ->; reflexivity).
      * now destruct (body_userName body).
      * now destruct (body_email body).
      * now destruct (body_address body).
  - intros Hnone. unfold updateProfile.
    assert (Hf : list_find (by_id id) (users w) = None)
      by (apply list_find_None; exact Hnone).
    now erewrite bind_resolve by (apply findOneAndUpdate_missing, Hf).
Qed.

(** ** Issuing a reset token *)

Lemma hex_pair_ok (b : byte) :
  is_hex_digit (hex_digit (Byte.to_N b / 16)) &&
  is_hex_digit (hex_digit (Byte.to_N b mod 16)) = true.
Proof. destruct b; vm_compute; reflexivity. Qed.

Lemma toString_hex_length buffer :
  String.length (toString_hex buffer) = (2 * length buffer)%nat.
Proof. induction buffer as [|b rest IH]; simpl; [reflexivity | rewrite IH; lia]. Qed.

Lemma toString_hex_all_hex buffer : all_hex (toString_hex buffer) = true.
Proof.
  induction buffer as [|b rest IH]; [reflexivity|].
  pose proof (hex_pair_ok b) as Hb. apply andb_true_iff in Hb as [Hhi Hlo].
  cbn [toString_hex all_hex]. now rewrite Hhi, Hlo, IH.
Qed.

Lemma randomBytes_length env n : length (randomBytes env n) = n.
Proof. unfold randomBytes. now rewrite length_map, length_seq. Qed.

(** The two assignments of [resetPassword] name paths under [reset], which
    the schema does not declare: the update leaves the document as it is. *)
Lemma set_reset_dropped token expire u : set_reset token expire u = u.
Proof. reflexivity. Qed.

Lemma resetPassword_world L env email w :
  snd (resetPassword L env email w) = w.
Proof.
  unfold resetPassword.
  destruct (list_find (by_email email) (users w)) as [[i user]|] eqn:Hf.
  - erewrite bind_resolve by (eapply findOne_found, Hf). cbv beta iota zeta.
    erewrite bind_resolve by (apply findOneAndUpdate_found, Hf). cbv beta iota.
    rewrite set_reset_dropped, list_insert_id, with_users_same
      by (now apply list_find_Some in Hf as (Hi & _)).
    now destruct (mailConfig L _ email).
  - now erewrite bind_resolve by (apply findOne_missing, Hf).
Qed.

(** C7 (what the code does instead): [resetPassword] draws 16 bytes from the
    random source and renders them as a token of 32 hexadecimal characters,
    but it stores neither the token nor an expiry: the update that carries
    them is dropped by the schema, the account found keeps the document it
    had, and the store after the call is the store before it. *)
Theorem resetPassword_stores_nothing L env email w :
  length (randomBytes env 16) = 16%nat /\
  String.length (toString_hex (randomBytes env 16)) = 32%nat /\
  all_hex (toString_hex (randomBytes env 16)) = true /\
  snd (resetPassword L env email w) = w /\
  (forall i user,
      list_find (by_email email) (users w) = Some (i, user) ->
      set_reset (toString_hex (randomBytes env 16))
        (Date_now env 0 + 3600 * 1000) user = user /\
      users (snd (resetPassword L env email w)) !! i = Some user).
Proof.
  rewrite toString_hex_length, randomBytes_length, toString_hex_all_hex.
  rewrite resetPassword_world.
  repeat match goal with |- _ /\ _ => split end; try reflexivity.
  intros i user Hf. split; [reflexivity|].
  now apply list_find_Some in Hf as (Hi & _).
Qed.

(** ** Changing the password *)

(** C8 (as amended): for an account with a stored hash, [updatePassword]
    fails with BadRequest when the new password verifies against that hash;
    when it does not verify and is not empty, the account gets the hash of
    the new password and nothing else changes; an empty new password fails
    with the 400 error "No data!" before any lookup. *)
Theorem updatePassword_checked_by_verify L env password id w i user h :
  list_find (by_id id) (users w) = Some (i, user) ->
  passwordHash user = val h ->
  (bcrypt_verify L password h = true ->
   exists m,
     updatePassword L env password id w = (Reject (Api (badRequest m)), w)) /\
  (bcrypt_verify L password h = false -> password <> "" ->
   updatePassword L env password id w =
     (Resolve (mkStatus true
                 ("User " +:+ render (userName user) +:+ " successfully updated")),
      with_users
        (<[i := set_passwordHash (createPasswordHash L env password) user]>
           (users w)) w)) /\
  (password = "" ->
   updatePassword L env password id w =
     (Reject (Api (badRequest "No data!")), w)).
Proof.
  intros Hf Hh. split; [|split].
  - intros Hv. unfold updatePassword.
    destruct (String.eqb password "") eqn:He; [now eexists|].
    erewrite bind_resolve by (eapply findUserById_found, Hf).
    rewrite Hh. unfold bind at 1, bcrypt_compare, ret. rewrite Hv. now eexists.
  - intros Hv Hne. unfold updatePassword. rewrite (nonempty_eqb _ Hne).
    erewrite bind_resolve by (eapply findUserById_found, Hf).
    rewrite Hh. unfold bind at 1, bcrypt_compare, ret. rewrite Hv.
    now erewrite bind_resolve by (apply findOneAndUpdate_found, Hf).
  - intros ->. reflexivity.
Qed.

(** ** Deleting an account *)

Lemma deleted_id_gone (us : list User) i u :
  NoDup (map _id us) -> us !! i = Some u ->
  Forall (fun v => ~ by_id (_id u) v) (delete i us).
Proof.
  intros Hnd Hi. apply Forall_lookup. intros j v Hj Hv. unfold by_id in Hv.
  change (map _id us) with (_id <$> us) in Hnd.
  assert (Hiu : (_id <$> us) !! i = Some (_id u))
    by (rewrite list_lookup_fmap, Hi; reflexivity).
  destruct (decide (j < i)%nat) as [Hlt|Hge].
  - rewrite list_lookup_delete_lt in Hj by exact Hlt.
    assert (Hjv : (_id <$> us) !! j = Some (_id u))
      by (rewrite list_lookup_fmap, Hj; simpl; now rewrite Hv).
    pose proof (NoDup_lookup _ _ _ _ Hnd Hiu Hjv). lia.
  - rewrite list_lookup_delete_ge in Hj by lia.
    assert (Hjv : (_id <$> us) !! S j = Some (_id u))
      by (rewrite list_lookup_fmap, Hj; simpl; now rewrite Hv).
    pose proof (NoDup_lookup _ _ _ _ Hnd Hiu Hjv). lia.
Qed.

Lemma deleteUser_found L id w i u :
  list_find (by_id id) (users w) = Some (i, u) ->
  deleteUser L id w =
    (Resolve (mkDeleted (length (filter (fun o => userId o = id) (orders w))) 1),
     mkWorld (delete i (users w))
             (filter (fun o => userId o <> id) (orders w)) (next_oid w)).
Proof.
  intros Hf. unfold deleteUser.
  erewrite bind_resolve by (eapply findUserById_found, Hf).
  unfold bind at 1, deleteMany.
  erewrite bind_resolve by (eapply deleteOne_found; simpl; exact Hf).
  reflexivity.
Qed.

(** C9: when no account has the id, [deleteUser] fails with NotFound and
    changes nothing. When an account has it, [deleteUser] resolves to the two
    deletion counts, removes exactly the orders whose [userId] is the id and
    removes the account; ids being unique, no account with the id is left,
    and looking the id up again fails with NotFound. *)
Theorem deleteUser_cascades L id w :
  (Forall (fun u => ~ by_id id u) (users w) ->
   deleteUser L id w =
     (Reject (Api (notFound (findUserById_message L))), w)) /\
  (forall i user,
      NoDup (map _id (users w)) ->
      list_find (by_id id) (users w) = Some (i, user) ->
      fst (deleteUser L id w) =
        Resolve (mkDeleted
                   (length (filter (fun o => userId o = id) (orders w))) 1) /\
      orders (snd (deleteUser L id w)) =
        filter (fun o => userId o <> id) (orders w) /\
      Forall (fun o => userId o <> id) (orders (snd (deleteUser L id w))) /\
      users (snd (deleteUser L id w)) = delete i (users w) /\
      Forall (fun u => ~ by_id id u) (users (snd (deleteUser L id w))) /\
      fst (findUserById L id (snd (deleteUser L id w))) =
        Reject (Api (notFound (findUserById_message L)))).
Proof.
  split.
  - intros Hnone. unfold deleteUser.
    assert (Hf : list_find (by_id id) (users w) = None)
      by (apply list_find_None; exact Hnone).
    now erewrite bind_reject by (apply findUserById_missing, Hf).
  - intros i user Hnd Hf. rewrite (deleteUser_found L id w i user Hf).
    cbn [fst snd users orders].
    assert (Hgone : Forall (fun u => ~ by_id id u) (delete i (users w))).
    { apply list_find_Some in Hf as (Hi & Hid & _). unfold by_id in Hid.
      subst id. now apply deleted_id_gone. }
    repeat split; try assumption.
    + apply Forall_forall. intros o Ho.
      apply list_elem_of_In, list_elem_of_filter in Ho. tauto.
    + erewrite findUserById_missing; [reflexivity|].
      apply list_find_None. exact Hgone.
Qed.

(** ** The store invariant is kept *)

Lemma keeps_ret {A} (a : A) : keeps_ids_unique (ret a).
Proof. intros w Hw. exact Hw. Qed.

Lemma keeps_throw {A} e : keeps_ids_unique (@throw A e).
Proof. intros w Hw. exact Hw. Qed.

Lemma keeps_raise {A} msg : keeps_ids_unique (@raise A msg).
Proof. intros w Hw. exact Hw. Qed.

Lemma keeps_bind {A B} (m : M A) (k : A -> M B) :
  keeps_ids_unique m -> (forall a, keeps_ids_unique (k a)) ->
  keeps_ids_unique (bind m k).
Proof.
  intros Hm Hk w Hw. specialize (Hm w Hw). unfold bind.
  destruct (m w) as [[a|e] w']; simpl in *; [now apply Hk | exact Hm].
Qed.

Lemma keeps_findOne P `{forall u, Decision (P u)} : keeps_ids_unique (findOne P).
Proof. intros w Hw. exact Hw. Qed.

Lemma keeps_findOneAndUpdate P `{forall u, Decision (P u)} update :
  (forall u, _id (update u) = _id u) ->
  keeps_ids_unique (findOneAndUpdate P update).
Proof.
  intros Hid w [Hnd Hlt]. unfold findOneAndUpdate.
  destruct (list_find P (users w)) as [[i u]|] eqn:Hf; [|now split].
  apply list_find_Some in Hf as (Hi & _). simpl. split; simpl.
  - change (map _id (<[i:=update u]> (users w)))
      with (_id <$> <[i:=update u]> (users w)).
    rewrite list_fmap_insert, Hid, list_insert_id; [exact Hnd|].
    change (map _id (users w)) with (_id <$> users w).
    now rewrite list_lookup_fmap, Hi.
  - apply Forall_insert; [exact Hlt|]. rewrite Hid.
    eapply Forall_lookup_1 in Hlt; [exact Hlt | exact Hi].
Qed.

Lemma keeps_create userName phone address passwordHash :
  keeps_ids_unique (create userName phone address passwordHash).
Proof.
  intros w [Hnd Hlt]. unfold create.
  destruct (list_find (by_phone phone) (users w)); [now split|].
  simpl. split; simpl.
  - rewrite map_app. simpl. apply list.NoDup_app.
    split; [exact Hnd|]. split.
    + intros x Hx Hx'. apply list_elem_of_singleton in Hx'. subst x.
      apply list_elem_of_In, in_map_iff in Hx as (u & Hu & Hin).
      rewrite Forall_forall in Hlt. specialize (Hlt u Hin). lia.
    + apply NoDup_singleton.
  - apply Forall_app. split.
    + eapply Forall_impl; [|exact Hlt]. simpl. intros; lia.
    + apply Forall_singleton. simpl. lia.
Qed.

Lemma keeps_deleteOne P `{forall u, Decision (P u)} : keeps_ids_unique (deleteOne P).
Proof.
  intros w [Hnd Hlt]. unfold deleteOne.
  destruct (list_find P (users w)) as [[i u]|]; [|now split].
  split; simpl.
  - change (map _id (delete i (users w))) with (_id <$> delete i (users w)).
    eapply sublist_NoDup; [exact Hnd|].
    change (map _id (users w)) with (_id <$> users w).
    apply fmap_sublist, sublist_delete.
  - now apply Forall_delete.
Qed.

Lemma set_profile_id body u : _id (set_profile body u) = _id u.
Proof. now rewrite set_profile_patched. Qed.

Lemma keeps_deleteMany id : keeps_ids_unique (deleteMany id).
Proof. intros w Hw. exact Hw. Qed.

Lemma keeps_bcrypt_compare L data hash : keeps_ids_unique (bcrypt_compare L data hash).
Proof. destruct hash; [apply keeps_raise | apply keeps_raise | apply keeps_ret]. Qed.

Lemma keeps_findUserById L id : keeps_ids_unique (findUserById L id).
Proof.
  apply keeps_bind; [apply keeps_findOne|].
  intros [u|]; [apply keeps_ret | apply keeps_throw].
Qed.

Create HintDb keeps.

#[local] Hint Resolve keeps_ret keeps_throw keeps_raise keeps_findOne
  keeps_create keeps_deleteOne keeps_deleteMany keeps_bcrypt_compare
  keeps_findUserById : keeps.

(** Composes the lemmas above along the structure of a method. *)
Ltac keeps :=
  repeat first
    [ apply keeps_bind; [|intros ?]
    | apply keeps_findOneAndUpdate; intros ?;
      first [reflexivity | apply set_profile_id]
    | solve [auto with keeps]
    | match goal with
      | |- keeps_ids_unique (match ?x with _ => _ end) => destruct x
      | |- keeps_ids_unique (if ?b then _ else _) => destruct b
      end ].

(** X11: Every method of the service keeps the ids of the [User] collection
    unique. *)
Lemma ids_unique_kept L env :
  (forall id, keeps_ids_unique (loginByToken L id)) /\
  (forall data, keeps_ids_unique (rawRegister data)) /\
  (forall data, keeps_ids_unique (fullRegister L env data)) /\
  (forall data, keeps_ids_unique (login L env data)) /\
  (forall userId password, keeps_ids_unique (setPassword L env userId password)) /\
  (forall email, keeps_ids_unique (resetPassword L env email)) /\
  (forall body, keeps_ids_unique (setNewPassword L env body)) /\
  (forall password id, keeps_ids_unique (confirmPassword L password id)) /\
  (forall password id, keeps_ids_unique (updatePassword L env password id)) /\
  (forall body id, keeps_ids_unique (updateProfile body id)) /\
  (forall id, keeps_ids_unique (deleteUser L id)).
Proof.
  repeat match goal with |- _ /\ _ => split end; intros;
    unfold loginByToken, rawRegister, fullRegister, login, setPassword,
      resetPassword, setNewPassword, confirmPassword, updatePassword,
      updateProfile, deleteUser; cbv zeta; keeps.
Qed.

(** * Further properties of the service *)

(** ** Invariants of the [User] collection *)

Lemma set_profile_identity body u : same_identity u (set_profile body u).
Proof. rewrite set_profile_patched. now repeat split. Qed.

Section Invariant.
Variable I : World -> Prop.

(** What an invariant has to survive: an update that keeps the identity of
    the document, the document [create] appends once the index let it
    through, the removal of a document, and any change of the orders. *)
Hypothesis I_update : forall w i u u',
  users w !! i = Some u -> same_identity u u' ->
  I w -> I (with_users (<[i := u']> (users w)) w).
Hypothesis I_create : forall w userName phone address passwordHash,
  list_find (by_phone phone) (users w) = None ->
  I w ->
  I (mkWorld
       (users w ++
          [mkUser (next_oid w) userName phone address undefined "customer"
                  passwordHash undefined undefined undefined undefined
                  undefined undefined])
       (orders w) (S (next_oid w))).
Hypothesis I_delete : forall w i, I w -> I (with_users (delete i (users w)) w).
Hypothesis I_orders : forall w os, I w -> I (with_orders os w).

Lemma inv_ret {A} (a : A) : keeps_inv I (ret a).
Proof. intros w Hw. exact Hw. Qed.

Lemma inv_throw {A} e : keeps_inv I (@throw A e).
Proof. intros w Hw. exact Hw. Qed.

Lemma inv_raise {A} msg : keeps_inv I (@raise A msg).
Proof. intros w Hw. exact Hw. Qed.

Lemma inv_bind {A B} (m : M A) (k : A -> M B) :
  keeps_inv I m -> (forall a, keeps_inv I (k a)) -> keeps_inv I (bind m k).
Proof.
  intros Hm Hk w Hw. specialize (Hm w Hw). unfold bind.
  destruct (m w) as [[a|e] w']; simpl in *; [now apply Hk | exact Hm].
Qed.

Lemma inv_findOne P `{forall u, Decision (P u)} : keeps_inv I (findOne P).
Proof. intros w Hw. exact Hw. Qed.

Lemma inv_findOneAndUpdate P `{forall u, Decision (P u)} update :
  (forall u, same_identity u (update u)) ->
  keeps_inv I (findOneAndUpdate P update).
Proof.
  intros Hid w Hw. unfold findOneAndUpdate.
  destruct (list_find P (users w)) as [[i u]|] eqn:Hf; [|exact Hw].
  apply list_find_Some in Hf as (Hi & _). simpl.
  now apply I_update with (u := u).
Qed.

Lemma inv_create userName phone address passwordHash :
  keeps_inv I (create userName phone address passwordHash).
Proof.
  intros w Hw. unfold create.
  destruct (list_find (by_phone phone) (users w)) eqn:Hf; [exact Hw|].
  simpl. now apply I_create.
Qed.

Lemma inv_deleteOne P `{forall u, Decision (P u)} : keeps_inv I (deleteOne P).
Proof.
  intros w Hw. unfold deleteOne.
  destruct (list_find P (users w)) as [[i u]|]; [|exact Hw].
  simpl. now apply I_delete.
Qed.

Lemma inv_deleteMany id : keeps_inv I (deleteMany id).
Proof. intros w Hw. unfold deleteMany. simpl. now apply I_orders. Qed.

Lemma inv_bcrypt_compare L data hash : keeps_inv I (bcrypt_compare L data hash).
Proof. destruct hash; [apply inv_raise | apply inv_raise | apply inv_ret]. Qed.

Lemma inv_findUserById L id : keeps_inv I (findUserById L id).
Proof.
  apply inv_bind; [apply inv_findOne|].
  intros [u|]; [apply inv_ret | apply inv_throw].
Qed.

(** Follows the structure of a method, down to the model's primitives. *)
Ltac inv_method :=
  repeat first
    [ apply inv_bind; [|intros ?]
    | apply inv_findOneAndUpdate; intros ?;
      first [apply set_profile_identity | repeat split]
    | apply inv_ret | apply inv_throw | apply inv_raise | apply inv_findOne
    | apply inv_create | apply inv_deleteOne | apply inv_deleteMany
    | apply inv_bcrypt_compare | apply inv_findUserById
    | match goal with
      | |- keeps_inv I (match ?x with _ => _ end) => destruct x
      | |- keeps_inv I (if ?b then _ else _) => destruct b
      end ].

Lemma methods_keep L env :
  (forall id, keeps_inv I (loginByToken L id)) /\
  (forall data, keeps_inv I (rawRegister data)) /\
  (forall data, keeps_inv I (fullRegister L env data)) /\
  (forall data, keeps_inv I (login L env data)) /\
  (forall userId password, keeps_inv I (setPassword L env userId password)) /\
  (forall email, keeps_inv I (resetPassword L env email)) /\
  (forall body, keeps_inv I (setNewPassword L env body)) /\
  (forall password id, keeps_inv I (confirmPassword L password id)) /\
  (forall password id, keeps_inv I (updatePassword L env password id)) /\
  (forall body id, keeps_inv I (updateProfile body id)) /\
  (forall id, keeps_inv I (deleteUser L id)).
Proof.
  repeat match goal with |- _ /\ _ => split end; intros;
    unfold loginByToken, rawRegister, fullRegister, login, setPassword,
      resetPassword, setNewPassword, confirmPassword, updatePassword,
      updateProfile, deleteUser; cbv zeta; inv_method.
Qed.

End Invariant.

Lemma eq_cond_sym {A} (q v : field A) : eq_cond q v -> eq_cond v q.
Proof. destruct q, v; simpl; congruence. Qed.

Lemma insert_lookup_identity (us : list User) i u u' a x :
  us !! i = Some u -> same_identity u u' ->
  <[i := u']> us !! a = Some x ->
  exists y, us !! a = Some y /\ same_identity y x.
Proof.
  intros Hi Hsame Ha. destruct (decide (a = i)) as [->|Hne].
  - rewrite list_lookup_insert_eq in Ha by (now apply lookup_lt_Some in Hi).
    injection Ha as <-. now exists u.
  - rewrite list_lookup_insert_ne in Ha by congruence.
    exists x. now repeat split.
Qed.

(** X12: Every method keeps the phones of the collection unique: the lookups
    before [create] and the unique index rule out a second document with
    the phone, and no update writes the phone. *)
Theorem phones_unique_kept L env :
  (forall id, keeps_inv phones_unique (loginByToken L id)) /\
  (forall data, keeps_inv phones_unique (rawRegister data)) /\
  (forall data, keeps_inv phones_unique (fullRegister L env data)) /\
  (forall data, keeps_inv phones_unique (login L env data)) /\
  (forall userId password,
      keeps_inv phones_unique (setPassword L env userId password)) /\
  (forall email, keeps_inv phones_unique (resetPassword L env email)) /\
  (forall body, keeps_inv phones_unique (setNewPassword L env body)) /\
  (forall password id, keeps_inv phones_unique (confirmPassword L password id)) /\
  (forall password id,
      keeps_inv phones_unique (updatePassword L env password id)) /\
  (forall body id, keeps_inv phones_unique (updateProfile body id)) /\
  (forall id, keeps_inv phones_unique (deleteUser L id)).
Proof.
  apply methods_keep.
  - intros w i u u' Hi Hsame Hw a b x y Ha Hb Hxy. simpl in Ha, Hb.
    destruct (insert_lookup_identity _ _ _ _ _ _ Hi Hsame Ha)
      as (x0 & Ha0 & _ & Hpx & _).
    destruct (insert_lookup_identity _ _ _ _ _ _ Hi Hsame Hb)
      as (y0 & Hb0 & _ & Hpy & _).
    apply (Hw a b x0 y0 Ha0 Hb0). now rewrite <- Hpx, <- Hpy.
  - intros w userName phone address passwordHash Hf Hw a b x y Ha Hb Hxy.
    simpl in Ha, Hb. apply list_find_None in Hf.
    apply lookup_app_Some in Ha as [Ha|[Hla Ha]];
      apply lookup_app_Some in Hb as [Hb|[Hlb Hb]].
    + now apply (Hw a b x y).
    + apply list_lookup_singleton_Some in Hb as [_ <-]. simpl in Hxy.
      exfalso. eapply Forall_lookup_1 in Hf; [|exact Ha].
      apply Hf. now apply eq_cond_sym.
    + apply list_lookup_singleton_Some in Ha as [_ <-]. simpl in Hxy.
      exfalso. eapply Forall_lookup_1 in Hf; [|exact Hb].
      now apply Hf.
    + apply list_lookup_singleton_Some in Ha as [Ha _].
      apply list_lookup_singleton_Some in Hb as [Hb _]. lia.
  - intros w i Hw a b x y Ha Hb Hxy. simpl in Ha, Hb.
    rewrite list_lookup_delete in Ha, Hb.
    destruct (decide (a < i)%nat), (decide (b < i)%nat);
      pose proof (Hw _ _ x y Ha Hb Hxy); lia.
  - intros w os Hw. exact Hw.
Qed.

(** X13: No method grants a role: when every account is a customer before a
    call, every account is a customer after it. *)
Theorem roles_stay_customer L env :
  (forall id, keeps_inv all_customers (loginByToken L id)) /\
  (forall data, keeps_inv all_customers (rawRegister data)) /\
  (forall data, keeps_inv all_customers (fullRegister L env data)) /\
  (forall data, keeps_inv all_customers (login L env data)) /\
  (forall userId password,
      keeps_inv all_customers (setPassword L env userId password)) /\
  (forall email, keeps_inv all_customers (resetPassword L env email)) /\
  (forall body, keeps_inv all_customers (setNewPassword L env body)) /\
  (forall password id, keeps_inv all_customers (confirmPassword L password id)) /\
  (forall password id,
      keeps_inv all_customers (updatePassword L env password id)) /\
  (forall body id, keeps_inv all_customers (updateProfile body id)) /\
  (forall id, keeps_inv all_customers (deleteUser L id)).
Proof.
  apply methods_keep; unfold all_customers.
  - intros w i u u' Hi (_ & _ & Hrole & _) Hw. simpl.
    apply Forall_insert; [exact Hw|]. rewrite Hrole.
    now apply (Forall_lookup_1 _ _ _ _ Hw Hi).
  - intros w userName phone address passwordHash _ Hw. simpl.
    apply Forall_app. split; [exact Hw|]. now apply Forall_singleton.
  - intros w i Hw. simpl. now apply Forall_delete.
  - intros w os Hw. exact Hw.
Qed.

(** ** How the methods compose *)

Lemma list_find_insert_same {A} (P : A -> Prop) `{forall x, Decision (P x)}
      (l : list A) i x y :
  list_find P l = Some (i, x) -> P y ->
  list_find P (<[i := y]> l) = Some (i, y).
Proof.
  intros Hf Hy. apply list_find_Some in Hf as (Hi & _ & Hleast).
  apply list_find_insert_Some. right; left.
  repeat split; try assumption.
  now apply lookup_lt_Some in Hi.
Qed.

Lemma list_find_snoc {A} (P : A -> Prop) `{forall x, Decision (P x)}
      (l : list A) x :
  list_find P l = None -> P x ->
  list_find P (l ++ [x]) = Some (length l, x).
Proof.
  intros Hf Hx. rewrite (list_find_app_r _ _ _ Hf). simpl.
  now rewrite decide_True by exact Hx.
Qed.

Lemma find_by_id_of_lookup (us : list User) j u :
  NoDup (map _id us) -> us !! j = Some u ->
  list_find (by_id (_id u)) us = Some (j, u).
Proof.
  intros Hnd Hj. apply list_find_Some. split; [exact Hj|]. split; [reflexivity|].
  intros k v Hk Hlt Hv. unfold by_id in Hv.
  change (map _id us) with (_id <$> us) in Hnd.
  assert (Hju : (_id <$> us) !! j = Some (_id u))
    by (rewrite list_lookup_fmap, Hj; reflexivity).
  assert (Hkv : (_id <$> us) !! k = Some (_id u))
    by (rewrite list_lookup_fmap, Hk; simpl; now rewrite Hv).
  pose proof (NoDup_lookup _ _ _ _ Hnd Hju Hkv). lia.
Qed.

Lemma truthy_val h : h <> "" -> truthy (val h) = true.
Proof. intros Hne. simpl. now rewrite (nonempty_eqb _ Hne). Qed.

Lemma login_with_hash L env data w j user h :
  list_find (by_phone (login_phone data)) (users w) = Some (j, user) ->
  passwordHash user = val h -> h <> "" ->
  login L env data w =
    if bcrypt_verify L (login_password data) h then
      (Resolve (mkLogged user (Some (generateToken L env (_id user)))
                  ("User " +:+ render (userName user) +:+ " successfully logged")),
       w)
    else (Reject (Api (badRequest "Incorrect login or password")), w).
Proof.
  intros Hf Hh Hne. unfold login.
  erewrite bind_resolve by (eapply findOne_found, Hf). cbv beta iota.
  rewrite Hh, (truthy_val _ Hne). unfold bind, bcrypt_compare, ret.
  now destruct (bcrypt_verify L (login_password data) h).
Qed.

Lemma confirmPassword_with_hash L password id w i user h :
  list_find (by_id id) (users w) = Some (i, user) ->
  passwordHash user = val h ->
  confirmPassword L password id w =
    if bcrypt_verify L password h then
      (Resolve (mkStatus true "Password confirmed"), w)
    else (Reject (Api (badRequest "Wrong password!")), w).
Proof.
  intros Hf Hh. unfold confirmPassword.
  erewrite bind_resolve by (eapply findUserById_found, Hf).
  rewrite Hh. unfold bind, bcrypt_compare, ret.
  now destruct (bcrypt_verify L password h).
Qed.

Lemma fullRegister_created L env data w :
  list_find (by_phone (reg_phone data)) (users w) = None ->
  fullRegister L env data w =
    (Resolve
       (mkUser (next_oid w) (reg_userName data) (reg_phone data) undefined
               undefined "customer"
               (val (createPasswordHash L env (reg_password data)))
               undefined undefined undefined undefined undefined undefined,
        generateToken L env (next_oid w)),
     mkWorld
       (users w ++
          [mkUser (next_oid w) (reg_userName data) (reg_phone data) undefined
                  undefined "customer"
                  (val (createPasswordHash L env (reg_password data)))
                  undefined undefined undefined undefined undefined undefined])
       (orders w) (S (next_oid w))).
Proof.
  intros Hf. unfold fullRegister.
  assert (Hcheck :
    (if truthy (reg_phone data) then
       let* candidat := findOne (by_phone (reg_phone data)) in
       match candidat with
       | Some _ =>
           throw (badRequest ("User with " +:+ render (reg_phone data)
                              +:+ " phone already exist. Please login"))
       | None => ret tt
       end
     else ret tt) w = (Resolve tt, w)).
  { destruct (truthy (reg_phone data)); [|reflexivity].
    now erewrite bind_resolve by (apply findOne_missing, Hf). }
  erewrite bind_resolve by exact Hcheck. cbv zeta.
  unfold bind, create. now rewrite Hf.
Qed.

(** X1: A full registration with a phone that an account already has fails with
    the 400 error that names the phone, and writes nothing. *)
Theorem fullRegister_taken_phone L env data w :
  truthy (reg_phone data) = true ->
  Exists (by_phone (reg_phone data)) (users w) ->
  fullRegister L env data w =
    (Reject (Api (badRequest ("User with " +:+ render (reg_phone data)
                              +:+ " phone already exist. Please login"))), w).
Proof.
  intros Ht Hex. unfold fullRegister. rewrite Ht.
  destruct (list_find (by_phone (reg_phone data)) (users w))
    as [[i u]|] eqn:Hf.
  - erewrite bind_reject; [reflexivity|].
    now erewrite bind_resolve by (eapply findOne_found, Hf).
  - exfalso. apply list_find_None in Hf.
    apply Exists_exists in Hex as (u & Hin & Hu).
    rewrite Forall_forall in Hf. now apply (Hf u).
Qed.

(** X2: Registering in full with a phone that no account has appends one
    account, a customer with the given name and phone and the hash of the
    password, and resolves to it with a session token for its id. If the
    library verifies the password against the hash it made of it, a login
    with the phone and the password then resolves to that account with a
    token and writes nothing, and a login with a password that does not
    verify fails with the 400 error. *)
Theorem fullRegister_then_login L env env' data w :
  Forall (fun u => ~ by_phone (reg_phone data) u) (users w) ->
  createPasswordHash L env (reg_password data) <> "" ->
  bcrypt_verify L (reg_password data)
    (createPasswordHash L env (reg_password data)) = true ->
  exists user,
    fullRegister L env data w =
      (Resolve (user, generateToken L env (_id user)),
       mkWorld (users w ++ [user]) (orders w) (S (next_oid w))) /\
    _id user = next_oid w /\
    userName user = reg_userName data /\
    phone user = reg_phone data /\
    role user = "customer" /\
    passwordHash user = val (createPasswordHash L env (reg_password data)) /\
    login L env' (mkLoginData (reg_phone data) (reg_password data))
      (snd (fullRegister L env data w)) =
    (Resolve (mkLogged user (Some (generateToken L env' (_id user)))
                ("User " +:+ render (userName user) +:+ " successfully logged")),
     snd (fullRegister L env data w)) /\
    (forall other,
        bcrypt_verify L other
          (createPasswordHash L env (reg_password data)) = false ->
        login L env' (mkLoginData (reg_phone data) other)
          (snd (fullRegister L env data w)) =
        (Reject (Api (badRequest "Incorrect login or password")),
         snd (fullRegister L env data w))).
Proof.
  intros Hnone Hne Hv.
  assert (Hf : list_find (by_phone (reg_phone data)) (users w) = None)
    by (apply list_find_None; exact Hnone).
  rewrite (fullRegister_created L env data w Hf).
  exists (mkUser (next_oid w) (reg_userName data) (reg_phone data)
            undefined undefined "customer"
            (val (createPasswordHash L env (reg_password data)))
            undefined undefined undefined undefined undefined undefined).
  split; [reflexivity|]. repeat (split; [reflexivity|]). simpl snd.
  assert (Hfound : forall p,
    list_find (by_phone (login_phone (mkLoginData (reg_phone data) p)))
      (users
         (mkWorld
            (users w ++
               [mkUser (next_oid w) (reg_userName data) (reg_phone data)
                       undefined undefined "customer"
                       (val (createPasswordHash L env (reg_password data)))
                       undefined undefined undefined undefined undefined
                       undefined])
            (orders w) (S (next_oid w)))) =
    Some (length (users w),
          mkUser (next_oid w) (reg_userName data) (reg_phone data)
                 undefined undefined "customer"
                 (val (createPasswordHash L env (reg_password data)))
                 undefined undefined undefined undefined undefined undefined)).
  { intros p. simpl. apply list_find_snoc; [exact Hf|].
    exact (eq_cond_refl (reg_phone data)). }
  split.
  - rewrite (login_with_hash L env' _ _ _ _ _ (Hfound _) eq_refl Hne).
    simpl login_password. now rewrite Hv.
  - intros other Hother.
    rewrite (login_with_hash L env' _ _ _ _ _ (Hfound _) eq_refl Hne).
    simpl login_password. now rewrite Hother.
Qed.

Lemma setPassword_done L env id password w i user :
  list_find (by_id id) (users w) = Some (i, user) ->
  truthy (passwordHash user) = false ->
  setPassword L env id password w =
    (Resolve (mkUpdated
                (set_passwordHash (createPasswordHash L env password) user)
                "Password successfully setted"),
     with_users
       (<[i := set_passwordHash (createPasswordHash L env password) user]>
          (users w)) w).
Proof.
  intros Hf Hno. unfold setPassword.
  erewrite bind_resolve by (eapply findUserById_found, Hf).
  rewrite Hno. cbv zeta.
  assert (Hid : _id user = id) by (now apply list_find_Some in Hf as (_ & Hid & _)).
  rewrite Hid.
  now erewrite bind_resolve by (apply findOneAndUpdate_found, Hf).
Qed.

(** X4: An account without a usable hash, found by its phone, is claimed by
    [setPassword]: the call stores the hash of the password on that account
    and changes nothing else, and, if the library verifies the password
    against the hash it made of it, a login with the phone and the password
    then resolves to the account with a session token. *)
Theorem setPassword_then_login L env env' phone password w j user :
  NoDup (map _id (users w)) ->
  list_find (by_phone phone) (users w) = Some (j, user) ->
  truthy (passwordHash user) = false ->
  createPasswordHash L env password <> "" ->
  bcrypt_verify L password (createPasswordHash L env password) = true ->
  setPassword L env (_id user) password w =
    (Resolve (mkUpdated
                (set_passwordHash (createPasswordHash L env password) user)
                "Password successfully setted"),
     with_users
       (<[j := set_passwordHash (createPasswordHash L env password) user]>
          (users w)) w) /\
  login L env' (mkLoginData phone password)
    (snd (setPassword L env (_id user) password w)) =
  (Resolve (mkLogged
              (set_passwordHash (createPasswordHash L env password) user)
              (Some (generateToken L env' (_id user)))
              ("User " +:+ render (userName user) +:+ " successfully logged")),
   snd (setPassword L env (_id user) password w)).
Proof.
  intros Hnd Hf Hno Hne Hv.
  assert (Hj : users w !! j = Some user)
    by (now apply list_find_Some in Hf as (Hj & _)).
  pose proof (find_by_id_of_lookup _ _ _ Hnd Hj) as Hid.
  rewrite (setPassword_done L env _ password w j user Hid Hno).
  split; [reflexivity|]. simpl snd.
  set (user' := set_passwordHash (createPasswordHash L env password) user).
  set (w' := with_users (<[j := user']> (users w)) w).
  assert (Hf' : list_find (by_phone (login_phone (mkLoginData phone password)))
                  (users w') = Some (j, user')).
  { simpl. apply list_find_insert_same with (x := user); [exact Hf|].
    now apply list_find_Some in Hf as (_ & Hp & _). }
  rewrite (login_with_hash L env' _ w' j user' _ Hf' eq_refl Hne).
  simpl login_password. now rewrite Hv.
Qed.

(** X5: A password is set only once: after a [setPassword] that stored a
    non-empty hash, another [setPassword] for the same id fails with the 403
    error "You have password yet. Please login" and writes nothing. *)
Theorem setPassword_only_once L env env' id password password' w i user :
  list_find (by_id id) (users w) = Some (i, user) ->
  truthy (passwordHash user) = false ->
  createPasswordHash L env password <> "" ->
  fst (setPassword L env id password w) =
    Resolve (mkUpdated
               (set_passwordHash (createPasswordHash L env password) user)
               "Password successfully setted") /\
  setPassword L env' id password' (snd (setPassword L env id password w)) =
    (Reject (Api (forbidden "You have password yet. Please login")),
     snd (setPassword L env id password w)).
Proof.
  intros Hf Hno Hne.
  rewrite (setPassword_done L env id password w i user Hf Hno).
  split; [reflexivity|]. simpl snd. unfold setPassword.
  erewrite bind_resolve.
  2:{ eapply findUserById_found. simpl.
      apply list_find_insert_same with (x := user); [exact Hf|].
      now apply list_find_Some in Hf as (_ & Hp & _). }
  change (passwordHash
            (set_passwordHash (createPasswordHash L env password) user))
    with (val (createPasswordHash L env password)).
  now rewrite (truthy_val _ Hne).
Qed.

Lemma updatePassword_committed L env password id w i user h :
  list_find (by_id id) (users w) = Some (i, user) ->
  passwordHash user = val h ->
  password <> "" -> bcrypt_verify L password h = false ->
  updatePassword L env password id w =
    (Resolve (mkStatus true
                ("User " +:+ render (userName user) +:+ " successfully updated")),
     with_users
       (<[i := set_passwordHash (createPasswordHash L env password) user]>
          (users w)) w).
Proof.
  intros Hf Hh Hne Hv. unfold updatePassword. rewrite (nonempty_eqb _ Hne).
  erewrite bind_resolve by (eapply findUserById_found, Hf).
  rewrite Hh. unfold bind at 1, bcrypt_compare, ret. rewrite Hv.
  now erewrite bind_resolve by (apply findOneAndUpdate_found, Hf).
Qed.

(** X6: After [updatePassword] committed a password that the library verifies
    against the hash it made of it: [confirmPassword] with that password
    resolves, [confirmPassword] with a password that does not verify fails
    with the 400 error "Wrong password!", and [updatePassword] with the same
    password again fails with the 400 error "The same password!"; none of the
    three writes. *)
Theorem updatePassword_then_confirm L env env' password id w i user h :
  list_find (by_id id) (users w) = Some (i, user) ->
  passwordHash user = val h ->
  password <> "" ->
  bcrypt_verify L password h = false ->
  bcrypt_verify L password (createPasswordHash L env password) = true ->
  confirmPassword L password id (snd (updatePassword L env password id w)) =
    (Resolve (mkStatus true "Password confirmed"),
     snd (updatePassword L env password id w)) /\
  (forall other,
      bcrypt_verify L other (createPasswordHash L env password) = false ->
      confirmPassword L other id (snd (updatePassword L env password id w)) =
        (Reject (Api (badRequest "Wrong password!")),
         snd (updatePassword L env password id w))) /\
  updatePassword L env' password id (snd (updatePassword L env password id w)) =
    (Reject (Api (badRequest "The same password!")),
     snd (updatePassword L env password id w)).
Proof.
  intros Hf Hh Hne Hv Hnew.
  rewrite (updatePassword_committed L env password id w i user h Hf Hh Hne Hv).
  simpl snd.
  set (user' := set_passwordHash (createPasswordHash L env password) user).
  set (w' := with_users (<[i := user']> (users w)) w).
  assert (Hf' : list_find (by_id id) (users w') = Some (i, user')).
  { simpl. apply list_find_insert_same with (x := user); [exact Hf|].
    now apply list_find_Some in Hf as (_ & Hp & _). }
  split; [|split].
  - rewrite (confirmPassword_with_hash L password id w' i user' _ Hf' eq_refl).
    now rewrite Hnew.
  - intros other Hother.
    rewrite (confirmPassword_with_hash L other id w' i user' _ Hf' eq_refl).
    now rewrite Hother.
  - unfold updatePassword. rewrite (nonempty_eqb _ Hne).
    erewrite bind_resolve by (eapply findUserById_found, Hf').
    change (passwordHash user')
      with (val (createPasswordHash L env password)).
    unfold bind at 1, bcrypt_compare, ret. now rewrite Hnew.
Qed.

(** X3: A fresh guest registration leaves an account that no password opens:
    whatever the password, a login with the phone resolves to the account
    with the message that no password is set and without a token; and a full
    registration with the same (non-empty) phone is refused with the 400
    error. Neither call writes. *)
Theorem rawRegister_then_login L env data w :
  Forall (fun u => ~ by_phone (reg_phone data) u) (users w) ->
  exists user,
    fst (rawRegister data w) = Resolve user /\
    passwordHash user = undefined /\
    (forall password,
        login L env (mkLoginData (reg_phone data) password)
          (snd (rawRegister data w)) =
        (Resolve (mkLogged user None
                    "You don't have password yet. Please, set the new one"),
         snd (rawRegister data w))) /\
    (truthy (reg_phone data) = true ->
     forall data',
       reg_phone data' = reg_phone data ->
       fst (fullRegister L env data' (snd (rawRegister data w))) =
         Reject (Api (badRequest ("User with " +:+ render (reg_phone data)
                                  +:+ " phone already exist. Please login")))).
Proof.
  intros Hnone.
  assert (Hf : list_find (by_phone (reg_phone data)) (users w) = None)
    by (apply list_find_None; exact Hnone).
  rewrite (rawRegister_fresh data w Hf). cbv zeta.
  set (user := mkUser (next_oid w) (reg_userName data) (reg_phone data)
                 (reg_address data) undefined "customer" undefined undefined
                 undefined undefined undefined undefined undefined).
  exists user. simpl fst. simpl snd.
  set (w' := mkWorld (users w ++ [user]) (orders w) (S (next_oid w))).
  assert (Hf' : list_find (by_phone (reg_phone data)) (users w') =
                Some (length (users w), user)).
  { simpl. apply list_find_snoc; [exact Hf|].
    exact (eq_cond_refl (reg_phone data)). }
  split; [reflexivity|]. split; [reflexivity|]. split.
  - intros password. unfold login. simpl login_phone.
    now erewrite bind_resolve by (eapply findOne_found, Hf').
  - intros Ht data' Hphone. unfold fullRegister. rewrite Hphone, Ht.
    erewrite bind_reject; [reflexivity|].
    now erewrite bind_resolve by (eapply findOne_found, Hf').
Qed.

(** ** Asking for a reset *)

(** X7: What [resetPassword] can answer. With no account for the address it
    fails with the 404 error and writes nothing. With an account, the
    outcome is the mail transport's, called with the token that renders the
    16 random bytes: its answer gives the delivery message, its failure
    gives the 422 error with the transport's text, or "Can't send mail" when
    it has none; the 403 error never arises. *)
Theorem resetPassword_outcomes L env email w :
  (Forall (fun u => ~ by_email email u) (users w) ->
   resetPassword L env email w =
     (Reject (Api (notFound "Can't find user with this email")), w)) /\
  (Exists (by_email email) (users w) ->
   fst (resetPassword L env email w) =
     match mailConfig L (toString_hex (randomBytes env 16)) email with
     | inl status =>
         Resolve (mkStatus (response status)
                    ("Email successfully sent to "
                     +:+ String.concat "," (accepted status)))
     | inr (val text) =>
         Reject (Api (invalidValue
                        (if String.eqb text "" then "Can't send mail"
                         else text)))
     | inr _ => Reject (Api (invalidValue "Can't send mail"))
     end).
Proof.
  split.
  - intros Hnone.
    assert (Hf : list_find (by_email email) (users w) = None)
      by (apply list_find_None; exact Hnone).
    unfold resetPassword.
    now erewrite bind_resolve by (apply findOne_missing, Hf).
  - intros Hex.
    destruct (list_find (by_email email) (users w)) as [[i user]|] eqn:Hf.
    + unfold resetPassword.
      erewrite bind_resolve by (eapply findOne_found, Hf). cbv beta iota zeta.
      erewrite bind_resolve by (apply findOneAndUpdate_found, Hf).
      cbv beta iota.
      destruct (mailConfig L _ email) as [status|[| |text]]; try reflexivity.
      simpl. now destruct (String.eqb text "").
    + exfalso. apply list_find_None in Hf.
      apply Exists_exists in Hex as (u & Hin & Hu).
      rewrite Forall_forall in Hf. now apply (Hf u).
Qed.

Lemma setNewPassword_without_tokens L env body w :
  no_reset_token w ->
  setNewPassword L env body w =
    (Reject (Api (forbidden "Modified forbidden")), w).
Proof.
  intros Hnone. apply setNewPassword_missing, list_find_None.
  eapply Forall_impl; [|exact Hnone].
  intros u Hu [Htok _]. cbv beta in Hu. simpl in Htok.
  rewrite Htok in Hu. discriminate.
Qed.

(** X8: The reset cannot be completed through the service. On a store in
    which no document holds a reset token, [resetPassword] leaves none
    behind, and [setNewPassword] with the very token that [resetPassword]
    handed to the mail transport, at whatever time, fails with the 403 error
    "Modified forbidden" and changes no password. *)
Theorem resetPassword_token_never_accepted L env env' email password w :
  no_reset_token w ->
  no_reset_token (snd (resetPassword L env email w)) /\
  setNewPassword L env'
    (mkResetBody (toString_hex (randomBytes env 16)) password)
    (snd (resetPassword L env email w)) =
  (Reject (Api (forbidden "Modified forbidden")), w).
Proof.
  intros Hnone. rewrite resetPassword_world. split; [exact Hnone|].
  now apply setNewPassword_without_tokens.
Qed.

(** X15: Every method keeps a store free of reset tokens: when no document
    holds one before a call, none holds one after it. *)
Theorem no_reset_token_kept L env :
  (forall id, keeps_inv no_reset_token (loginByToken L id)) /\
  (forall data, keeps_inv no_reset_token (rawRegister data)) /\
  (forall data, keeps_inv no_reset_token (fullRegister L env data)) /\
  (forall data, keeps_inv no_reset_token (login L env data)) /\
  (forall userId password,
      keeps_inv no_reset_token (setPassword L env userId password)) /\
  (forall email, keeps_inv no_reset_token (resetPassword L env email)) /\
  (forall body, keeps_inv no_reset_token (setNewPassword L env body)) /\
  (forall password id, keeps_inv no_reset_token (confirmPassword L password id)) /\
  (forall password id,
      keeps_inv no_reset_token (updatePassword L env password id)) /\
  (forall body id, keeps_inv no_reset_token (updateProfile body id)) /\
  (forall id, keeps_inv no_reset_token (deleteUser L id)).
Proof.
  apply methods_keep; unfold no_reset_token.
  - intros w i u u' Hi (_ & _ & _ & Htok & _) Hw. simpl.
    apply Forall_insert; [exact Hw|]. rewrite Htok.
    now apply (Forall_lookup_1 _ _ _ _ Hw Hi).
  - intros w userName phone address passwordHash _ Hw. simpl.
    apply Forall_app. split; [exact Hw|]. now apply Forall_singleton.
  - intros w i Hw. simpl. now apply Forall_delete.
  - intros w os Hw. exact Hw.
Qed.

(** ** What the methods leave alone *)

(** Runs a method down to the outcome of each of its paths. *)
Ltac run_paths :=
  unfold findUserById;
  unfold bind, findOne, findOneAndUpdate, deleteOne, deleteMany,
    create, bcrypt_compare, ret, throw, raise;
  cbv beta;
  repeat match goal with
    | |- context [match ?x with _ => _ end] =>
        lazymatch x with
        | context [match _ with _ => _ end] => fail
        | _ => destruct x; cbv beta iota
        end
    end;
  cbn [fst snd]; first [reflexivity | discriminate | idtac].

(** X9: The three methods that only look things up never write: after
    [loginByToken], [login] and [confirmPassword] the store is the one
    before the call, whatever the outcome. *)
Theorem lookups_never_write L env :
  (forall id w, snd (loginByToken L id w) = w) /\
  (forall data w, snd (login L env data w) = w) /\
  (forall password id w, snd (confirmPassword L password id w) = w).
Proof.
  repeat match goal with |- _ /\ _ => split end; intros;
    unfold loginByToken, login, confirmPassword; run_paths.
Qed.

(** X10: A call of [fullRegister], [setPassword], [updatePassword],
    [updateProfile] or [deleteUser] that rejects with an [ApiError] of the
    service, whatever its status, has written nothing. *)
Theorem rejections_leave_store L env :
  (forall data w e,
      fst (fullRegister L env data w) = Reject (Api e) ->
      snd (fullRegister L env data w) = w) /\
  (forall userId password w e,
      fst (setPassword L env userId password w) = Reject (Api e) ->
      snd (setPassword L env userId password w) = w) /\
  (forall password id w e,
      fst (updatePassword L env password id w) = Reject (Api e) ->
      snd (updatePassword L env password id w) = w) /\
  (forall body id w e,
      fst (updateProfile body id w) = Reject (Api e) ->
      snd (updateProfile body id w) = w) /\
  (forall id w e,
      fst (deleteUser L id w) = Reject (Api e) ->
      snd (deleteUser L id w) = w).
Proof.
  repeat match goal with |- _ /\ _ => split end; intros until e;
    unfold fullRegister, setPassword, updatePassword, updateProfile, deleteUser;
    cbv zeta; run_paths.
Qed.

(** ** The rendering of a token *)

Lemma hex_pair_back (b : byte) rest :
  fromString_hex
    (String (hex_digit (Byte.to_N b / 16))
       (String (hex_digit (Byte.to_N b mod 16)) rest)) =
  b :: fromString_hex rest.
Proof. destruct b; reflexivity. Qed.

Lemma fromString_toString_hex buffer :
  fromString_hex (toString_hex buffer) = buffer.
Proof.
  induction buffer as [|b rest IH]; [reflexivity|].
  cbn [toString_hex]. now rewrite hex_pair_back, IH.
Qed.

(** X14: The hexadecimal rendering loses nothing of the buffer: two buffers
    render to the same token exactly when they are the same bytes, so two
    reset requests issue the same token only on the same random bytes. *)
Theorem toString_hex_injective buffer buffer' :
  toString_hex buffer = toString_hex buffer' <-> buffer = buffer'.
Proof.
  split; [|now intros ->].
  intros Heq. rewrite <- (fromString_toString_hex buffer), Heq.
  apply fromString_toString_hex.
Qed.

(** * The methods at work *)

(** Settles a closed, decidable goal by running its decision procedure. *)
Ltac by_decision :=
  match goal with
  | |- ?G => apply (@bool_decide_unpack G _); vm_compute; exact I
  end.

Example guest_world_users : users guest_world = [guest_user].
Proof. reflexivity. Qed.

Example member_world_users : users member_world = [member_user].
Proof. reflexivity. Qed.

Example pending_world_users : users pending_world = [pending_user].
Proof. reflexivity. Qed.

Example empty_world_ids_unique : ids_unique empty_world.
Proof. split; constructor. Qed.

Example worlds_ids_unique :
  ids_unique guest_world /\ ids_unique member_world /\ ids_unique pending_world.
Proof.
  unfold ids_unique. repeat split; by_decision.
Qed.


Example token_reused_password :
  passwordHash <$>
    users (snd (setNewPassword toy_libs (env_at 3000)
                  (mkResetBody issued_token "second")
                  (snd (setNewPassword toy_libs (env_at 2000)
                          (mkResetBody issued_token "first") pending_world))))
  = [val "2a2a$second"].
Proof. reflexivity. Qed.

(** The right token, presented after its expiry. *)
Lemma setNewPassword_no_match_forbidden_witness :
  setNewPassword toy_libs (env_at 4000000) (mkResetBody issued_token "late")
    pending_world =
  (Reject (Api (forbidden "Modified forbidden")), pending_world).
Proof.
  apply (setNewPassword_no_match_forbidden toy_libs (env_at 4000000)
           (mkResetBody issued_token "late") pending_world).
  by_decision.
Defined.

(** A wrong token, presented in time: the same error. *)
Example setNewPassword_wrong_token :
  setNewPassword toy_libs (env_at 2000) (mkResetBody "00ff" "guess") pending_world
  = setNewPassword toy_libs (env_at 4000000) (mkResetBody issued_token "late")
      pending_world.
Proof. reflexivity. Qed.

Lemma setNewPassword_forbidden_atomic_witness :
  snd (setNewPassword toy_libs (env_at 4000000) (mkResetBody issued_token "late")
         pending_world) = pending_world.
Proof.
  apply (setNewPassword_forbidden_atomic toy_libs (env_at 4000000)
           (mkResetBody issued_token "late") pending_world "Modified forbidden").
  reflexivity.
Defined.

(** A guest account has no hash: confirming a password on it ends in the
    library's error, not in a 400. *)
Lemma confirmPassword_missing_hash_throws_witness :
  confirmPassword toy_libs "secret" 0%nat guest_world =
    (Reject (LibError "data and hash arguments required"), guest_world) /\
  ("secret" <> "" ->
   updatePassword toy_libs (env_at 2000) "secret" 0%nat guest_world =
     (Reject (LibError "data and hash arguments required"), guest_world)).
Proof.
  apply (confirmPassword_missing_hash_throws toy_libs (env_at 2000) "secret"
           0%nat guest_world 0%nat guest_user).
  - reflexivity.
  - reflexivity.
Defined.

Lemma rawRegister_idempotent_witness :
  exists user,
    fst (rawRegister (mkRegisterData (val "+1000") (val "Eve") undefined "")
           member_world) = Resolve user /\
    user = member_user.
Proof.
  destruct (rawRegister_idempotent
              (mkRegisterData (val "+1000") (val "Eve") undefined "")
              member_world) as (user & Hfst & _ & _).
  exists user. split; [exact Hfst|].
  vm_compute in Hfst. now injection Hfst as <-.
Defined.

Example rawRegister_twice_new_phone :
  rawRegister (mkRegisterData (val "+3000") (val "Eve") undefined "")
    (snd (rawRegister (mkRegisterData (val "+3000") (val "Eve") undefined "")
            member_world))
  = (fst (rawRegister (mkRegisterData (val "+3000") (val "Eve") undefined "")
            member_world),
     snd (rawRegister (mkRegisterData (val "+3000") (val "Eve") undefined "")
            member_world)).
Proof. reflexivity. Qed.

Lemma login_cases_witness :
  login toy_libs (env_at 2000) (mkLoginData (val "+2000") "anything") guest_world =
  (Resolve (mkLogged guest_user None
              "You don't have password yet. Please, set the new one"),
   guest_world).
Proof.
  apply (proj1 (login_cases toy_libs (env_at 2000)
                  (mkLoginData (val "+2000") "anything") guest_world)
           0%nat guest_user).
  - reflexivity.
  - reflexivity.
Defined.

Example login_wrong_password :
  fst (login toy_libs (env_at 2000) (mkLoginData (val "+1000") "wrong") member_world)
  = Reject (Api (badRequest "Incorrect login or password")).
Proof. reflexivity. Qed.

Example login_right_password :
  fst (login toy_libs (env_at 2000) (mkLoginData (val "+1000") "abc123") member_world)
  = Resolve (mkLogged member_user (Some "session") "User Ann successfully logged").
Proof. reflexivity. Qed.

Example login_unknown_phone :
  fst (login toy_libs (env_at 2000) (mkLoginData (val "+9999") "abc123") member_world)
  = Reject (Api (notFound "Can't find user")).
Proof. reflexivity. Qed.

(** A body that gives a name, nulls the e-mail address and leaves the
    address out. *)
Lemma updateProfile_overwrites_witness :
  exists updated,
    fst (updateProfile (Some (mkProfileBody (val "Anna") null undefined))
           0%nat member_world) =
      Resolve (mkUpdated updated "User Anna successfully updated") /\
    userName updated = val "Anna" /\
    email updated = null /\
    address updated = address member_user /\
    phone updated = val "+1000" /\
    passwordHash updated = val "2a2a$abc123".
Proof.
  destruct (proj1 (updateProfile_overwrites
                     (mkProfileBody (val "Anna") null undefined)
                     0%nat member_world) 0%nat member_user eq_refl)
    as (updated & -> & Hrun & _).
  eexists. rewrite Hrun. repeat split.
Defined.

(** C6 (the claim as stated fails): a body with only an e-mail address
    leaves the name of the account as it was, "Ann", and not null, and
    leaves its address missing. *)
Lemma updateProfile_absent_field_kept :
  exists updated,
    updateProfile (Some (mkProfileBody undefined (val "ann@b.com") undefined))
      0%nat member_world =
      (Resolve (mkUpdated updated "User Ann successfully updated"),
       with_users [updated] member_world) /\
    email updated = val "ann@b.com" /\
    userName updated = val "Ann" /\ userName updated <> null /\
    address updated = undefined /\ address updated <> null.
Proof. eexists. repeat split; discriminate. Qed.

Example updateProfile_unknown_id :
  updateProfile (Some (mkProfileBody (val "Ann") undefined undefined)) 5%nat
    member_world
  = (Reject (Api (forbidden "Modified forbidden")), member_world).
Proof. reflexivity. Qed.

(** The account asks for a reset at time 1000: the token is mailed, and the
    store is left without it. *)
Lemma resetPassword_stores_nothing_witness :
  fst (resetPassword toy_libs (env_at 1000) (val "a@b.com") member_world) =
    Resolve (mkStatus "250 OK" "Email successfully sent to a@b.com") /\
  toString_hex (randomBytes (env_at 1000) 16) = issued_token /\
  users (snd (resetPassword toy_libs (env_at 1000) (val "a@b.com") member_world))
    = [member_user] /\
  reset_token member_user = undefined /\
  reset_expire member_user = undefined.
Proof.
  destruct (resetPassword_stores_nothing toy_libs (env_at 1000) (val "a@b.com")
              member_world) as (_ & _ & _ & Hsame & _).
  rewrite Hsame. repeat split.
Defined.

Example resetPassword_unknown_email :
  resetPassword toy_libs (env_at 1000) (val "x@y.com") member_world
  = (Reject (Api (notFound "Can't find user with this email")), member_world).
Proof. reflexivity. Qed.

Lemma updatePassword_checked_by_verify_witness :
  (exists m,
      updatePassword toy_libs (env_at 2000) "abc123" 0%nat member_world =
        (Reject (Api (badRequest m)), member_world)) /\
  passwordHash <$>
    users (snd (updatePassword toy_libs (env_at 2000) "xyz789" 0%nat member_world))
  = [val "2a2a$xyz789"].
Proof.
  split.
  - apply (updatePassword_checked_by_verify toy_libs (env_at 2000) "abc123"
             0%nat member_world 0%nat member_user "2a2a$abc123");
      reflexivity.
  - destruct (updatePassword_checked_by_verify toy_libs (env_at 2000) "xyz789"
                0%nat member_world 0%nat member_user "2a2a$abc123"
                eq_refl eq_refl) as (_ & Hcommit & _).
    rewrite Hcommit; [reflexivity | reflexivity | discriminate].
Defined.

(** C8 (the claim as stated fails): the empty password does not verify
    against the stored hash of the account, and yet it is not committed: the
    call fails with the 400 error "No data!" and the stored hash stays. *)
Lemma updatePassword_empty_not_committed :
  list_find (by_id 0%nat) (users member_world) = Some (0%nat, member_user) /\
  passwordHash member_user = val "2a2a$abc123" /\
  bcrypt_verify toy_libs "" "2a2a$abc123" = false /\
  updatePassword toy_libs (env_at 2000) "" 0%nat member_world =
    (Reject (Api (badRequest "No data!")), member_world) /\
  passwordHash <$>
    users (snd (updatePassword toy_libs (env_at 2000) "" 0%nat member_world))
  <> [val (createPasswordHash toy_libs (env_at 2000) "")].
Proof. repeat split. discriminate. Qed.

(** The account of [member_world] has three orders. *)
Lemma deleteUser_cascades_witness :
  fst (deleteUser toy_libs 0%nat member_world) = Resolve (mkDeleted 3 1) /\
  orders (snd (deleteUser toy_libs 0%nat member_world)) = [mkOrder 11 7]%nat /\
  users (snd (deleteUser toy_libs 0%nat member_world)) = [] /\
  fst (findUserById toy_libs 0%nat (snd (deleteUser toy_libs 0%nat member_world))) =
    Reject (Api (notFound "User not found")).
Proof.
  destruct (proj2 (deleteUser_cascades toy_libs 0%nat member_world)
              0%nat member_user)
    as (Hres & Hord & _ & Husers & _ & Hlookup).
  - by_decision.
  - reflexivity.
  - rewrite Hres, Hord, Husers, Hlookup. repeat split.
Defined.

Example deleteUser_unknown_id :
  deleteUser toy_libs 4%nat member_world
  = (Reject (Api (notFound "User not found")), member_world).
Proof. reflexivity. Qed.

(** ** Further runs *)

Example empty_world_invariants :
  phones_unique empty_world /\ all_customers empty_world.
Proof.
  split; [|constructor].
  intros i j u v Hi. destruct i; discriminate Hi.
Qed.

(** The guest world is reached from the empty one by [rawRegister]. *)
Lemma phones_unique_kept_witness : phones_unique guest_world.
Proof.
  apply (proj1 (proj2 (phones_unique_kept toy_libs (env_at 1000)))
           (mkRegisterData (val "+2000") (val "Bob") undefined "") empty_world).
  intros i j u v Hi. destruct i; discriminate Hi.
Defined.

Lemma roles_stay_customer_witness :
  all_customers
    (snd (updateProfile
            (Some (mkProfileBody (val "Ann") (val "root@b.com") (val "role: admin")))
            0%nat member_world)).
Proof.
  apply (proj1 (proj2 (proj2 (proj2 (proj2 (proj2 (proj2 (proj2 (proj2 (proj2
           (roles_stay_customer toy_libs (env_at 1000)))))))))))
           (Some (mkProfileBody (val "Ann") (val "root@b.com") (val "role: admin")))
           0%nat member_world).
  unfold all_customers. by_decision.
Defined.

Lemma ids_unique_kept_witness :
  ids_unique (snd (deleteUser toy_libs 0%nat member_world)).
Proof.
  apply (proj2 (proj2 (proj2 (proj2 (proj2 (proj2 (proj2 (proj2 (proj2 (proj2
           (ids_unique_kept toy_libs (env_at 1000)))))))))))
           0%nat member_world).
  unfold ids_unique. split; by_decision.
Defined.

Lemma fullRegister_taken_phone_witness :
  fullRegister toy_libs (env_at 2000)
    (mkRegisterData (val "+1000") (val "Eve") undefined "qwerty") member_world =
  (Reject (Api (badRequest "User with +1000 phone already exist. Please login")),
   member_world).
Proof.
  apply (fullRegister_taken_phone toy_libs (env_at 2000)
           (mkRegisterData (val "+1000") (val "Eve") undefined "qwerty")
           member_world).
  - reflexivity.
  - by_decision.
Defined.

Lemma fullRegister_then_login_witness :
  exists user,
    fst (fullRegister toy_libs (env_at 1000)
           (mkRegisterData (val "+1000") (val "Ann") undefined "abc123")
           empty_world) = Resolve (user, "session") /\
    fst (login toy_libs (env_at 2000) (mkLoginData (val "+1000") "abc123")
           (snd (fullRegister toy_libs (env_at 1000)
                   (mkRegisterData (val "+1000") (val "Ann") undefined "abc123")
                   empty_world))) =
      Resolve (mkLogged user (Some "session") "User Ann successfully logged") /\
    fst (login toy_libs (env_at 2000) (mkLoginData (val "+1000") "wrong")
           (snd (fullRegister toy_libs (env_at 1000)
                   (mkRegisterData (val "+1000") (val "Ann") undefined "abc123")
                   empty_world))) =
      Reject (Api (badRequest "Incorrect login or password")).
Proof.
  destruct (fullRegister_then_login toy_libs (env_at 1000) (env_at 2000)
              (mkRegisterData (val "+1000") (val "Ann") undefined "abc123")
              empty_world)
    as (user & Hreg & _ & Hname & _ & _ & _ & Hlogin & Hwrong).
  - constructor.
  - discriminate.
  - reflexivity.
  - specialize (Hwrong "wrong" eq_refl).
    cbn [reg_phone reg_password reg_userName] in Hlogin, Hwrong, Hname.
    exists user. rewrite Hlogin, Hwrong, Hreg, Hname. repeat split.
Defined.

Lemma setPassword_then_login_witness :
  fst (login toy_libs (env_at 3000) (mkLoginData (val "+2000") "secret")
         (snd (setPassword toy_libs (env_at 2000) 0%nat "secret" guest_world))) =
  Resolve (mkLogged (set_passwordHash "2a2a$secret" guest_user) (Some "session")
             "User Bob successfully logged").
Proof.
  destruct (setPassword_then_login toy_libs (env_at 2000) (env_at 3000)
              (val "+2000") "secret" guest_world 0%nat guest_user)
    as (_ & Hlogin).
  - by_decision.
  - reflexivity.
  - reflexivity.
  - discriminate.
  - reflexivity.
  - simpl _id in Hlogin. rewrite Hlogin. reflexivity.
Defined.

Lemma setPassword_only_once_witness :
  setPassword toy_libs (env_at 3000) 0%nat "other"
    (snd (setPassword toy_libs (env_at 2000) 0%nat "secret" guest_world)) =
  (Reject (Api (forbidden "You have password yet. Please login")),
   snd (setPassword toy_libs (env_at 2000) 0%nat "secret" guest_world)).
Proof.
  apply (setPassword_only_once toy_libs (env_at 2000) (env_at 3000) 0%nat
           "secret" "other" guest_world 0%nat guest_user).
  - reflexivity.
  - reflexivity.
  - discriminate.
Defined.

Lemma updatePassword_then_confirm_witness :
  confirmPassword toy_libs "xyz789" 0%nat
    (snd (updatePassword toy_libs (env_at 2000) "xyz789" 0%nat member_world)) =
  (Resolve (mkStatus true "Password confirmed"),
   snd (updatePassword toy_libs (env_at 2000) "xyz789" 0%nat member_world)).
Proof.
  apply (updatePassword_then_confirm toy_libs (env_at 2000) (env_at 3000)
           "xyz789" 0%nat member_world 0%nat member_user "2a2a$abc123").
  - reflexivity.
  - reflexivity.
  - discriminate.
  - reflexivity.
  - reflexivity.
Defined.

Lemma rawRegister_then_login_witness :
  exists user,
    fst (rawRegister (mkRegisterData (val "+3000") (val "Eve") undefined "")
           member_world) = Resolve user /\
    fst (login toy_libs (env_at 2000) (mkLoginData (val "+3000") "anything")
           (snd (rawRegister (mkRegisterData (val "+3000") (val "Eve") undefined "")
                   member_world))) =
      Resolve (mkLogged user None
                 "You don't have password yet. Please, set the new one").
Proof.
  destruct (rawRegister_then_login toy_libs (env_at 2000)
              (mkRegisterData (val "+3000") (val "Eve") undefined "")
              member_world)
    as (user & Hreg & _ & Hlogin & _).
  - by_decision.
  - exists user. split; [exact Hreg|]. now rewrite Hlogin.
Defined.

(** The transport is down: the call fails with the 422 error. *)
Lemma resetPassword_outcomes_witness :
  fst (resetPassword offline_libs (env_at 1000) (val "a@b.com") member_world) =
    Reject (Api (invalidValue "Can't send mail")).
Proof.
  rewrite (proj2 (resetPassword_outcomes offline_libs (env_at 1000)
                    (val "a@b.com") member_world)).
  - reflexivity.
  - by_decision.
Defined.

(** The mailed token, presented in time, is refused. *)
Lemma resetPassword_token_never_accepted_witness :
  setNewPassword toy_libs (env_at 2000) (mkResetBody issued_token "fresh")
    (snd (resetPassword toy_libs (env_at 1000) (val "a@b.com") member_world)) =
  (Reject (Api (forbidden "Modified forbidden")), member_world).
Proof.
  apply (resetPassword_token_never_accepted toy_libs (env_at 1000) (env_at 2000)
           (val "a@b.com") "fresh" member_world).
  unfold no_reset_token. by_decision.
Defined.

Lemma no_reset_token_kept_witness :
  no_reset_token
    (snd (fullRegister toy_libs (env_at 1000)
            (mkRegisterData (val "+1000") (val "Ann") undefined "abc123")
            empty_world)).
Proof.
  apply (proj1 (proj2 (proj2 (no_reset_token_kept toy_libs (env_at 1000))))
           (mkRegisterData (val "+1000") (val "Ann") undefined "abc123")
           empty_world).
  constructor.
Defined.

Lemma lookups_never_write_witness :
  snd (login toy_libs (env_at 2000) (mkLoginData (val "+1000") "wrong")
         member_world) = member_world.
Proof.
  exact (proj1 (proj2 (lookups_never_write toy_libs (env_at 2000)))
           (mkLoginData (val "+1000") "wrong") member_world).
Defined.

Lemma rejections_leave_store_witness :
  snd (updatePassword toy_libs (env_at 2000) "abc123" 0%nat member_world) =
  member_world.
Proof.
  apply (proj1 (proj2 (proj2 (rejections_leave_store toy_libs (env_at 2000))))
           "abc123" 0%nat member_world
           (badRequest "The same password!")).
  reflexivity.
Defined.

Lemma toString_hex_injective_witness :
  toString_hex [x00; xff; x2a] <> toString_hex [x00; xff; x2b].
Proof.
  intros Heq. apply toString_hex_injective in Heq. discriminate Heq.
Defined.
